(** * Bifrost: node records to SNMP traps

    A shallow embedding of [main.py]: the Python values decoded from the
    monitoring API, the builtins and the SNMP value constructor the program
    applies to them, the translation of one node record into its varbind
    list, the classification of a delivery reply, and the run loop over a
    world that records what the program does. *)

From Stdlib Require Import ZArith String Ascii List Lia.
From Stdlib Require Import Floats.SpecFloat.
From stdpp Require Import gmap strings pretty.

Set Warnings "-register-all".
#[local] Open Scope Z_scope.

(** ** Python values

    What [r.json()] can return: JSON null, booleans, integers, floats,
    strings, arrays and objects.  Text is held as its UTF-8 bytes; a float is
    its IEEE-754 decomposition; an object is a finite map, since the program
    only ever reads it through [.get]. *)

Inductive pyval :=
  | PyNone
  | PyBool (b : bool)
  | PyInt (n : Z)
  | PyFloat (f : spec_float)
  | PyStr (s : string)
  | PyList (l : list pyval)
  | PyDict (d : gmap string pyval).

(** ** Exceptions and fallible results *)

Inductive exn :=
  | TypeError
  | ValueError
  | OverflowError
  | AttributeError
  | BifrostAPIError (msg : string)
  | RuntimeError (msg : string)
  | LibraryError (msg : string).

Inductive result (A : Type) :=
  | Ok (a : A)
  | Raise (e : exn).

Arguments Ok {A} a.
Arguments Raise {A} e.

#[global] Instance result_ret : MRet result := fun _ a => Ok a.

#[global] Instance result_bind : MBind result := fun _ _ k r =>
  match r with
  | Ok a => k a
  | Raise e => Raise e
  end.

(** ** What Python decides from its own tables

    [repr()] of a float or a container, and [str.lower()] and [int()] of text
    that is not plain ASCII, follow tables of the interpreter (float
    printing, Unicode case mapping, Unicode digits and blanks).  They are
    parameters: every property below holds whatever they return. *)

Record Runtime := {
  py_repr : pyval -> string;
  unicode_lower : string -> string;
  unicode_int : string -> option Z
}.

(** ** Builtins *)

(** Truthiness, as [or] and [if] test it. *)
Definition py_bool (v : pyval) : bool :=
  match v with
  | PyNone => false
  | PyBool b => b
  | PyInt n => negb (n =? 0)
  | PyFloat (S754_zero _) => false
  | PyFloat _ => true
  | PyStr s => negb (String.length s =? 0)%nat
  | PyList l => negb (length l =? 0)%nat
  | PyDict d => negb (size d =? 0)%nat
  end.

(** [a or b]: the first operand when it is truthy, else the second. *)
Definition py_or (a b : pyval) : pyval := if py_bool a then a else b.

(** [d.get(k)] and [d.get(k, default)]. *)
Definition dict_get (d : gmap string pyval) (k : string) : pyval :=
  default PyNone (d !! k).

Definition dict_get_or (d : gmap string pyval) (k : string) (dflt : pyval) : pyval :=
  default dflt (d !! k).

(** Looking up the [get] method: only a dict has one. *)
Definition get_method (v : pyval) : result (gmap string pyval) :=
  match v with
  | PyDict d => Ok d
  | _ => Raise AttributeError
  end.

(** [str(n)] and [f"{n}"] of an integer: signed decimal.  Integers are
    unbounded; CPython's cap on converting integers of thousands of digits
    is left out. *)
Definition str_of_int (n : Z) : string := pretty n.

(** Text made of ASCII characters only. *)
Fixpoint is_ascii (s : string) : bool :=
  match s with
  | EmptyString => true
  | String c s' => (nat_of_ascii c <? 128)%nat && is_ascii s'
  end.

(** *** int() *)

Definition is_space (c : ascii) : bool :=
  let n := nat_of_ascii c in
  ((9 <=? n) && (n <=? 13) || (28 <=? n) && (n <=? 32))%nat.

Definition digit_of (c : ascii) : option Z :=
  let n := Z.of_nat (nat_of_ascii c) in
  if (48 <=? n) && (n <=? 57) then Some (n - 48) else None.

Fixpoint lstrip (s : string) : string :=
  match s with
  | String c s' => if is_space c then lstrip s' else s
  | EmptyString => EmptyString
  end.

(** The last character seen while reading a decimal literal. *)
Inductive lit_state := AtStart | AfterDigit | AfterUnderscore.

(** Digits, single underscores between digits, then only blanks. *)
Fixpoint read_digits (st : lit_state) (acc : Z) (s : string) : option Z :=
  match s with
  | EmptyString =>
      match st with AfterDigit => Some acc | _ => None end
  | String c s' =>
      match digit_of c with
      | Some dgt => read_digits AfterDigit (10 * acc + dgt) s'
      | None =>
          if Ascii.eqb c "_" then
            match st with
            | AfterDigit => read_digits AfterUnderscore acc s'
            | _ => None
            end
          else if is_space c then
            match st, lstrip s' with
            | AfterDigit, EmptyString => Some acc
            | _, _ => None
            end
          else None
      end
  end.

Definition read_literal (s : string) : option Z :=
  match lstrip s with
  | String "-" s' => Z.opp <$> read_digits AtStart 0 s'
  | String "+" s' => read_digits AtStart 0 s'
  | s' => read_digits AtStart 0 s'
  end.

Fixpoint digit_count (s : string) : nat :=
  match s with
  | EmptyString => 0
  | String c s' =>
      (match digit_of c with Some _ => 1 | None => 0 end + digit_count s')%nat
  end.

(** The interpreter's default limit on the digits of a decimal literal. *)
Definition INT_MAX_STR_DIGITS : nat := 4300.

(** [int(s)] of ASCII text: a literal of at most 4300 digits. *)
Definition int_of_ascii (s : string) : option Z :=
  if (digit_count s <=? INT_MAX_STR_DIGITS)%nat then read_literal s else None.

Definition int_of_str (rt : Runtime) (s : string) : option Z :=
  if is_ascii s then int_of_ascii s else unicode_int rt s.

(** Truncation toward zero; infinities and NaN are refused. *)
Definition int_of_float (f : spec_float) : result Z :=
  match f with
  | S754_zero _ => Ok 0
  | S754_finite sign m e =>
      let mag := if 0 <=? e then Z.pos m * 2 ^ e else Z.pos m / 2 ^ (- e) in
      Ok (if sign then - mag else mag)
  | S754_infinity _ => Raise OverflowError
  | S754_nan => Raise ValueError
  end.

Definition py_int (rt : Runtime) (v : pyval) : result Z :=
  match v with
  | PyInt n => Ok n
  | PyBool b => Ok (if b then 1 else 0)
  | PyFloat f => int_of_float f
  | PyStr s =>
      match int_of_str rt s with
      | Some n => Ok n
      | None => Raise ValueError
      end
  | PyNone | PyList _ | PyDict _ => Raise TypeError
  end.

(** *** str.lower() *)

Definition lower_char (c : ascii) : ascii :=
  let n := nat_of_ascii c in
  if ((65 <=? n) && (n <=? 90))%nat then ascii_of_nat (n + 32) else c.

Fixpoint ascii_lower (s : string) : string :=
  match s with
  | EmptyString => EmptyString
  | String c s' => String (lower_char c) (ascii_lower s')
  end.

Definition lower (rt : Runtime) (s : string) : string :=
  if is_ascii s then ascii_lower s else unicode_lower rt s.

(** *** str() *)

Definition py_str (rt : Runtime) (v : pyval) : string :=
  match v with
  | PyStr s => s
  | PyInt n => str_of_int n
  | PyNone => "None"
  | PyBool true => "True"
  | PyBool false => "False"
  | PyFloat _ | PyList _ | PyDict _ => py_repr rt v
  end.

(** ** Module-level settings *)

Record Settings := {
  API_URL : option string;
  API_USER : option string;
  API_PASS : option string;
  TRAP_RECEIVER_IP : option string;
  TRAP_RECEIVER_PORT : Z;
  SNMP_COMMUNITY : string;
  ENTERPRISE_TRAP_OID : string;
  DEFAULT_LOCATION : string
}.

Definition TIMEOUT_SECONDS : Z := 5.

(** [os.getenv(name, dflt)] *)
Definition getenv_or (env : gmap string string) (name dflt : string) : string :=
  default dflt (env !! name).

Definition load_settings (rt : Runtime) (env : gmap string string) : result Settings :=
  port ← py_int rt (PyStr (getenv_or env "TRAP_RECEIVER_PORT" "1162"));
  Ok {| API_URL := env !! "API_URL";
        API_USER := env !! "API_USER";
        API_PASS := env !! "API_PASS";
        TRAP_RECEIVER_IP := env !! "TRAP_RECEIVER_IP";
        TRAP_RECEIVER_PORT := port;
        SNMP_COMMUNITY := getenv_or env "SNMP_COMMUNITY" "public";
        ENTERPRISE_TRAP_OID := getenv_or env "ENTERPRISE_TRAP_OID" "1.3.6.1.4.1.11307.10";
        DEFAULT_LOCATION := getenv_or env "DEFAULT_LOCATION" "unknown" |}.

(** ** Varbinds

    An [ObjectIdentity] keeps the text it is given; it is resolved only when
    the notification is sent.  A value is of one of the library's value
    classes; the program builds octet strings only, which hold bytes. *)

Inductive smi_name := ObjectIdentity (oid : string).

Inductive smi_value :=
  | Octets (bytes : string)
  | Integer32 (n : Z)
  | TimeTicks (n : Z)
  | IpAddress (addr : string)
  | ObjectIdentifier (oid : string).

Definition varbind : Type := smi_name * smi_value.

(** *** The library's OctetString(...)

    The constructor turns its argument into bytes and checks their number:
    text is encoded in ISO-8859-1, and refused when a character has no such
    encoding; a list goes through [bytes()], which wants integers in
    [0, 255]; anything else goes through [bytes()] too, which turns a
    non-negative integer [n] into [n] zero bytes and refuses a negative one,
    a float or null; more than 65535 bytes are refused. *)

(** The ISO-8859-1 bytes of UTF-8 text: a character below 128 is its byte,
    the two-byte sequences led by 194 and 195 are the characters 128 to 255,
    every other sequence is a character above 255. *)
Fixpoint latin1_encode (s : string) : option string :=
  match s with
  | EmptyString => Some EmptyString
  | String b s' =>
      let n := nat_of_ascii b in
      if (n <? 128)%nat then String b <$> latin1_encode s'
      else
        match s' with
        | String c s'' =>
            let m := nat_of_ascii c in
            if ((128 <=? m) && (m <? 192))%nat then
              if (n =? 194)%nat then String c <$> latin1_encode s''
              else if (n =? 195)%nat then
                String (ascii_of_nat (m + 64)) <$> latin1_encode s''
              else None
            else None
        | EmptyString => None
        end
  end.

Definition OCTETS_MAX : Z := 65535.

(** The size constraint of the SNMP octet string. *)
Definition sized (bs : string) : result smi_value :=
  if Z.of_nat (String.length bs) <=? OCTETS_MAX then Ok (Octets bs)
  else Raise (LibraryError "ValueConstraintError").

Fixpoint zeros (n : nat) : string :=
  match n with
  | O => EmptyString
  | S n' => String zero (zeros n')
  end.

(** [bytes(n)].  A count above 65535 would be refused by the size constraint
    once allocated, and one that does not fit a machine index is refused at
    once; running out of memory in between is left out. *)
Definition bytes_of_int (n : Z) : result string :=
  if n <? 0 then Raise ValueError
  else if n <=? OCTETS_MAX then Ok (zeros (Z.to_nat n))
  else if n <? 2 ^ 63 then Raise (LibraryError "ValueConstraintError")
  else Raise OverflowError.

Definition byte_of (v : pyval) : result ascii :=
  match v with
  | PyInt n =>
      if (0 <=? n) && (n <=? 255) then Ok (ascii_of_nat (Z.to_nat n)) else Raise ValueError
  | PyBool b => Ok (if b then one else zero)
  | _ => Raise TypeError
  end.

(** [bytes(l)] of a list. *)
Fixpoint bytes_of_list (l : list pyval) : result string :=
  match l with
  | [] => Ok EmptyString
  | v :: l' =>
      b ← byte_of v;
      bs ← bytes_of_list l';
      Ok (String b bs)
  end.

Definition prettyIn (v : pyval) : result string :=
  match v with
  | PyStr s =>
      match latin1_encode s with
      | Some bs => Ok bs
      | None => Raise (LibraryError "PyAsn1UnicodeEncodeError")
      end
  | PyList l => bytes_of_list l
  | PyInt n => bytes_of_int n
  | PyBool b => bytes_of_int (if b then 1 else 0)
  | PyDict d => if (size d =? 0)%nat then Ok EmptyString else Raise TypeError
  | PyFloat _ | PyNone => Raise TypeError
  end.

Definition OctetString (v : pyval) : result smi_value :=
  bs ← prettyIn v;
  sized bs.

Definition ip_mock_por_nodeid (node_id : Z) : string :=
  let a := (node_id `div` 256) `mod` 256 in
  let b := node_id `mod` 256 in
  "10.199." +:+ str_of_int a +:+ "." +:+ str_of_int b.

(** ** Replies, events and the world *)

(** An HTTP response as the program reads it: the status code, and the body
    decoded by [r.json()], which may raise. *)
Record Response := {
  status_code : Z;
  json : result pyval
}.

(** The error indication of a reply, seen through [bool()] and [str()]. *)
Record indication := {
  truthy : bool;
  text : string
}.

(** The error status of a reply: truthy when not zero, named by
    [prettyPrint()]. *)
Record status := {
  status_value : Z;
  prettyPrint : string
}.

Definition no_indication : indication := {| truthy := false; text := "None" |}.
Definition plain_zero : status := {| status_value := 0; prettyPrint := "0" |}.

(** What the send call returns: a 4-tuple, or anything else. *)
Inductive reply :=
  | Reply4 (error_indication : indication) (error_status : status)
           (error_index : Z) (var_binds : list varbind)
  | ReplyOther (res : indication).

(** The two lines of the execution log, with the numbers they report. *)
Inductive exec_line :=
  | ApiFetch (nodes : nat) (fetch_ms : N)
  | TrapSendCompleted (nodes_sent : nat) (send_ms : N).

(** What a run does, in order: the request, log lines, the call of the
    translator on a node, the creation of a transport target, the sending of
    a notification, a sleep, the final marker. *)
Inductive event :=
  | HttpGet (url : option string) (auth : option string * option string) (timeout : Z)
  | ErrorLog (context : string) (e : exn)
  | ExecLog (line : exec_line)
  | Translate (nodo : pyval)
  | CreateTarget (target : option string * Z)
  | SendNotification (community : string) (target : option string * Z)
                     (trap : smi_name) (varbinds : list varbind)
  | Sleep (ms : N)
  | PrintSuccess
  | PrintFailure (e : exn).

(** What the program does not decide: the answer to the request; for the
    [k]-th delivery, whether the transport target can be created and what
    the send of lines 153-161 gives back ([Raise] when building its
    arguments or the library call raises); and durations in milliseconds,
    none of them negative. *)
Record Outside := {
  http_reply : result Response;
  http_ms : N;
  target_reply : nat -> result unit;
  trap_reply : nat -> result reply;
  trap_ms : nat -> N;
  oversleep_ms : nat -> N
}.

(** The state threaded through a run: the clock, the number of sends begun,
    and the events so far. *)
Record World := {
  clock : N;
  attempts : nat;
  trace : list event
}.

Definition set_trace (w : World) (t : list event) : World :=
  {| clock := clock w; attempts := attempts w; trace := t |}.

Definition set_clock (w : World) (c : N) : World :=
  {| clock := c; attempts := attempts w; trace := trace w |}.

Definition boot : World := {| clock := 0; attempts := 0; trace := [] |}.

Section Program.

Variable rt : Runtime.
Variable cfg : Settings.

(** *** UTIL: one node record to its varbinds *)

(** The five locals of lines 115-119. *)
Definition caption_of (d : gmap string pyval) (node_id : Z) : string :=
  py_str rt (dict_get_or d "Caption" (PyStr ("node-" +:+ str_of_int node_id))).

Definition status_of (d : gmap string pyval) : string :=
  lower rt (py_str rt (dict_get_or d "Status" (PyStr "unknown"))).

Definition vendor_of (d : gmap string pyval) : string :=
  py_str rt (dict_get_or d "Vendor" (PyStr "unknown")).

Definition node_ip_of (d : gmap string pyval) (node_id : Z) : pyval :=
  py_or (dict_get d "NodeIP") (PyStr (ip_mock_por_nodeid node_id)).

Definition location_of (d : gmap string pyval) : string :=
  py_str rt (py_or (dict_get d "location") (PyStr (DEFAULT_LOCATION cfg))).

Definition construir_varbinds (nodo : pyval) : result (list varbind) :=
  d ← get_method nodo;
  node_id ← py_int rt (dict_get d "NodeID");
  let caption := caption_of d node_id in
  let status := status_of d in
  let vendor := vendor_of d in
  let node_ip := node_ip_of d node_id in
  let location := location_of d in
  let SYSUPTIME_OID := "1.3.6.1.2.1.1.3.0" in
  let SNMP_TRAP_OID := "1.3.6.1.6.3.1.1.4.1.0" in
  let GENERIC_OID := "1.3.6.1.6.3.1.1.4.3.0" in
  let SYSLOCATION_OID := "1.3.6.1.2.1.1.6.0" in
  let STATUS_OID := ENTERPRISE_TRAP_OID cfg +:+ ".1" in
  let CAPTION_OID := ENTERPRISE_TRAP_OID cfg +:+ ".2" in
  let NODE_IP_OID := ENTERPRISE_TRAP_OID cfg +:+ ".3" in
  let NODE_ID_OID := ENTERPRISE_TRAP_OID cfg +:+ ".4" in
  let VENDOR_OID := ENTERPRISE_TRAP_OID cfg +:+ ".5" in
  v_uptime ← OctetString (PyStr "0");
  v_trap ← OctetString (PyStr (ENTERPRISE_TRAP_OID cfg));
  v_generic ← OctetString (PyStr "1.3.6.1.4.1.11307");
  v_location ← OctetString (PyStr location);
  v_status ← OctetString (PyStr status);
  v_caption ← OctetString (PyStr caption);
  v_node_ip ← OctetString node_ip;
  v_node_id ← OctetString (PyStr (str_of_int node_id));
  v_vendor ← OctetString (PyStr vendor);
  Ok [ (ObjectIdentity SYSUPTIME_OID, v_uptime);
       (ObjectIdentity SNMP_TRAP_OID, v_trap);
       (ObjectIdentity GENERIC_OID, v_generic);
       (ObjectIdentity SYSLOCATION_OID, v_location);
       (ObjectIdentity STATUS_OID, v_status);
       (ObjectIdentity CAPTION_OID, v_caption);
       (ObjectIdentity NODE_IP_OID, v_node_ip);
       (ObjectIdentity NODE_ID_OID, v_node_id);
       (ObjectIdentity VENDOR_OID, v_vendor) ].

(** *** The world the program runs in

    Time is a clock in milliseconds.  The outside decides what the HTTP
    request returns and how long it takes, what each delivery gets back and
    how long it takes, and by how much each sleep overshoots. *)

Variable out : Outside.

(** Every effect goes through [M]: an exception stops what follows, the
    world reached so far is kept. *)
Definition M (A : Type) : Type := World -> result A * World.

#[local] Instance M_ret : MRet M := fun _ a w => (Ok a, w).

#[local] Instance M_bind : MBind M := fun _ _ k m w =>
  match m w with
  | (Ok a, w') => k a w'
  | (Raise e, w') => (Raise e, w')
  end.

Definition lift {A} (r : result A) : M A := fun w => (r, w).

Definition emit (ev : event) : M unit :=
  fun w => (Ok tt, set_trace w (trace w ++ [ev])).

Definition elapse (ms : N) : M unit :=
  fun w => (Ok tt, set_clock w (clock w + ms)%N).

Definition perf_counter : M N := fun w => (Ok (clock w), w).

(** [try: body except Exception as e: handler(e); raise] *)
Definition logging_errors {A} (body : M A) (handler : exn -> M unit) : M A :=
  fun w =>
    match body w with
    | (Ok a, w') => (Ok a, w')
    | (Raise e, w') => (Raise e, snd (handler e w'))
    end.

Fixpoint for_each {A} (xs : list A) (body : A -> M unit) : M unit :=
  match xs with
  | [] => mret tt
  | x :: xs' => body x ;; for_each xs' body
  end.

(** *** CONSUMIR API *)

Definition requests_get : M Response :=
  emit (HttpGet (API_URL cfg) (API_USER cfg, API_PASS cfg) TIMEOUT_SECONDS) ;;
  elapse (http_ms out) ;;
  lift (http_reply out).

Definition obtener_nodos : M (list pyval) :=
  logging_errors
    (r ← requests_get;
     if status_code r =? 401 then
       lift (Raise (BifrostAPIError "Credenciales inválidas (401)"))
     else if negb (status_code r =? 200) then
       lift (Raise (BifrostAPIError ("Respuesta inesperada: " +:+ str_of_int (status_code r))))
     else
       data ← lift (json r);
       match data with
       | PyList records => mret records
       | _ => lift (Raise (BifrostAPIError "El payload no es una lista"))
       end)
    (fun e => emit (ErrorLog "Error al obtener nodos" e)).

(** *** ENVIAR TRAP *)

(** Lines 149-151: the transport target of the delivery; the library may
    raise. *)
Definition create_target (target : option string) : M unit :=
  fun w =>
    (target_reply out (attempts w),
     set_trace w (trace w ++ [CreateTarget (target, TRAP_RECEIVER_PORT cfg)])).

(** The notification handed to the library for one delivery. *)
Definition send_event (varbinds : list varbind) (target : option string) : event :=
  SendNotification (SNMP_COMMUNITY cfg) (target, TRAP_RECEIVER_PORT cfg)
    (ObjectIdentity (ENTERPRISE_TRAP_OID cfg)) varbinds.

(** Lines 153-161: the engine, the community data, the context and the
    notification are built and the send call is made; one of them raises, or
    the reply is returned. *)
Definition send_notification_func (varbinds : list varbind) (target : option string) : M reply :=
  fun w =>
    let k := attempts w in
    (trap_reply out k,
     {| clock := (clock w + trap_ms out k)%N;
        attempts := S k;
        trace := trace w ++ [send_event varbinds target] |}).

(** Lines 163-166: a 4-tuple is taken apart; anything else is the indication
    itself, with status and index zero. *)
Definition unpack_reply (res : reply) : indication * status * Z :=
  match res with
  | Reply4 error_indication error_status error_index _ =>
      (error_indication, error_status, error_index)
  | ReplyOther r => (r, plain_zero, 0)
  end.

(** Lines 168-173: raise on an indication, then on a non-zero status. *)
Definition check_reply (res : reply) : result unit :=
  let '(error_indication, error_status, error_index) := unpack_reply res in
  if truthy error_indication then
    Raise (RuntimeError (text error_indication))
  else if negb (status_value error_status =? 0) then
    Raise (RuntimeError (prettyPrint error_status +:+ " at " +:+ str_of_int error_index))
  else Ok tt.

Definition enviar_trap (varbinds : list varbind) (target : option string) : M unit :=
  create_target target ;;
  res ← send_notification_func varbinds target;
  lift (check_reply res).

Definition sleep (ms : N) : M unit :=
  fun w =>
    (Ok tt,
     {| clock := (clock w + ms + oversleep_ms out (attempts w))%N;
        attempts := attempts w;
        trace := trace w ++ [Sleep ms] |}).

(** *** MAIN *)

(** One turn of the loop of [main]; the [Translate] event marks the call of
    [construir_varbinds] on the node. *)
Definition loop_body (nodo : pyval) : M unit :=
  emit (Translate nodo) ;;
  vb ← lift (construir_varbinds nodo);
  enviar_trap vb (TRAP_RECEIVER_IP cfg) ;;
  sleep 20.

(** [datetime.now()] only stamps the first log line and is left out. *)
Definition main : M unit :=
  t_fetch_start ← perf_counter;
  nodos ← obtener_nodos;
  t_fetch_end ← perf_counter;
  emit (ExecLog (ApiFetch (length nodos) (t_fetch_end - t_fetch_start))) ;;
  t_trap_start ← perf_counter;
  for_each nodos loop_body ;;
  t_trap_end ← perf_counter;
  emit (ExecLog (TrapSendCompleted (length nodos) (t_trap_end - t_trap_start))) ;;
  emit PrintSuccess.

(** The [__main__] block: run [main]; on any exception log it and print the
    failure marker. *)
Definition script (w : World) : World :=
  match main w with
  | (Ok _, w') => w'
  | (Raise e, w') =>
      snd ((emit (ErrorLog "Fallo en BIFROST sender" e) ;; emit (PrintFailure e)) w')
  end.

(** What handling a node as the [k]-th delivery comes to: its translation,
    the creation of the target, the reply to the send, the check of the
    reply. *)
Definition node_outcome (k : nat) (nodo : pyval) : result unit :=
  vb ← construir_varbinds nodo;
  target_reply out k ;;
  res ← trap_reply out k;
  check_reply res.

(** The world after the request, whatever it returned. *)
Definition after_request (w : World) : World :=
  {| clock := (clock w + http_ms out)%N;
     attempts := attempts w;
     trace := trace w ++ [HttpGet (API_URL cfg) (API_USER cfg, API_PASS cfg) TIMEOUT_SECONDS] |}.

(** The world after a node went through a whole turn of the loop. *)
Definition after_turn (nodo : pyval) (vb : list varbind) (w : World) : World :=
  {| clock := (clock w + trap_ms out (attempts w) + 20 + oversleep_ms out (S (attempts w)))%N;
     attempts := S (attempts w);
     trace := trace w ++ [Translate nodo;
                          CreateTarget (TRAP_RECEIVER_IP cfg, TRAP_RECEIVER_PORT cfg);
                          send_event vb (TRAP_RECEIVER_IP cfg); Sleep 20] |}.

End Program.

(** ** Names of the specification

    The program raises one exception class per phase and tells the cases
    apart by message; these are the specification's names for them. *)

Definition AuthError : exn := BifrostAPIError "Credenciales inválidas (401)".
Definition UnexpectedResponseError (code : Z) : exn :=
  BifrostAPIError ("Respuesta inesperada: " +:+ str_of_int code).
Definition MalformedPayloadError : exn := BifrostAPIError "El payload no es una lista".

(** A record, and a sequence of records, as the data model describes them. *)
Definition is_record (v : pyval) : bool :=
  match v with PyDict _ => true | _ => false end.

Definition is_record_sequence (v : pyval) : bool :=
  match v with PyList l => forallb is_record l | _ => false end.

(** ** Text an octet string can carry *)

(** ISO-8859-1 text of at most 65535 characters. *)
Definition octet_ok (s : string) : bool :=
  match latin1_encode s with
  | Some bs => Z.of_nat (String.length bs) <=? OCTETS_MAX
  | None => false
  end.

(** The ISO-8859-1 bytes of such text. *)
Definition latin1 (s : string) : string := default EmptyString (latin1_encode s).

(** Every text the translation of a record emits is such text, and NodeIP,
    when it is truthy, is text. *)
Definition fits_octets (rt : Runtime) (cfg : Settings) (d : gmap string pyval)
    (node_id : Z) : bool :=
  octet_ok (ENTERPRISE_TRAP_OID cfg)
  && octet_ok (location_of rt cfg d)
  && octet_ok (status_of rt d)
  && octet_ok (caption_of rt d node_id)
  && match node_ip_of d node_id with PyStr ip => octet_ok ip | _ => false end
  && octet_ok (str_of_int node_id)
  && octet_ok (vendor_of rt d).

(** The payloads handed to [OctetString] that depend on the record or on the
    settings, in the order of the list. *)
Definition payloads (rt : Runtime) (cfg : Settings) (d : gmap string pyval)
    (node_id : Z) : list pyval :=
  [ PyStr (ENTERPRISE_TRAP_OID cfg); PyStr (location_of rt cfg d);
    PyStr (status_of rt d); PyStr (caption_of rt d node_id);
    node_ip_of d node_id; PyStr (str_of_int node_id); PyStr (vendor_of rt d) ].

(** ** Observations on a trace *)

Definition translated (t : list event) : list pyval :=
  omap (fun ev => match ev with Translate n => Some n | _ => None end) t.

Definition sent (t : list event) : list (list varbind) :=
  omap (fun ev => match ev with SendNotification _ _ _ vb => Some vb | _ => None end) t.

Definition summaries (t : list event) : list (nat * N) :=
  omap (fun ev => match ev with ExecLog (TrapSendCompleted n ms) => Some (n, ms) | _ => None end) t.

Definition successes (t : list event) : list unit :=
  omap (fun ev => match ev with PrintSuccess => Some tt | _ => None end) t.

Definition failures (t : list event) : list exn :=
  omap (fun ev => match ev with PrintFailure e => Some e | _ => None end) t.

(** Sends and sleeps in the order they happen: [None] for a send, [Some ms]
    for a sleep. *)
Definition pacing (t : list event) : list (option N) :=
  omap (fun ev => match ev with
                  | SendNotification _ _ _ _ => Some None
                  | Sleep ms => Some (Some ms)
                  | _ => None
                  end) t.

(** ** Tests on text and on varbinds *)

Definition is_upper (c : ascii) : bool :=
  let n := nat_of_ascii c in ((65 <=? n) && (n <=? 90))%nat.

Fixpoint has_upper (s : string) : bool :=
  match s with
  | EmptyString => false
  | String c s' => is_upper c || has_upper s'
  end.

Fixpoint no_dot (s : string) : bool :=
  match s with
  | EmptyString => true
  | String c s' => negb (Ascii.eqb c ".") && no_dot s'
  end.

Fixpoint last_char (s : string) : option ascii :=
  match s with
  | EmptyString => None
  | String c EmptyString => Some c
  | String _ s' => last_char s'
  end.

Definition oid_of (vb : varbind) : string :=
  match fst vb with ObjectIdentity o => o end.

Definition is_octets (v : smi_value) : bool :=
  match v with Octets _ => true | _ => false end.

(** The exception of the first call that raised, in a row of calls. *)
Fixpoint first_raise {A} (rs : list (result A)) : option exn :=
  match rs with
  | [] => None
  | Ok _ :: rs' => first_raise rs'
  | Raise e :: _ => Some e
  end.

(** ** Fixtures for closed examples *)

(** The settings loaded from an empty environment. *)
Definition default_settings : Settings :=
  {| API_URL := None; API_USER := None; API_PASS := None;
     TRAP_RECEIVER_IP := None; TRAP_RECEIVER_PORT := 1162;
     SNMP_COMMUNITY := "public";
     ENTERPRISE_TRAP_OID := "1.3.6.1.4.1.11307.10";
     DEFAULT_LOCATION := "unknown" |}.

(** Settings of another installation, with the same root and location. *)
Definition other_settings : Settings :=
  {| API_URL := Some "https://nms.example/api/nodes"; API_USER := Some "bifrost";
     API_PASS := Some "secret"; TRAP_RECEIVER_IP := Some "192.0.2.10";
     TRAP_RECEIVER_PORT := 162; SNMP_COMMUNITY := "private";
     ENTERPRISE_TRAP_OID := "1.3.6.1.4.1.11307.10"; DEFAULT_LOCATION := "unknown" |}.

(** A runtime for the closed examples; none of them reaches it: no float,
    list or dict is turned into text, and no text outside ASCII is
    lower-cased or read as an integer. *)
Definition sample_runtime : Runtime :=
  {| py_repr := fun _ => "<repr>";
     unicode_lower := fun s => s;
     unicode_int := fun _ => None |}.

Definition core_sw_fields : gmap string pyval :=
  list_to_map [("NodeID", PyInt 5); ("Caption", PyStr "core-sw"); ("Status", PyStr "Down")].

Definition core_sw : pyval := PyDict core_sw_fields.

(** A record with every field, its NodeID as text and a location outside
    ASCII. *)
Definition edge_rtr_fields : gmap string pyval :=
  list_to_map [("NodeID", PyStr "12"); ("Caption", PyStr "edge-rtr"); ("Status", PyStr "Up");
               ("Vendor", PyStr "Cisco"); ("NodeIP", PyStr "192.0.2.7");
               ("location", PyStr "Zürich")].

(** "Zürich" in ISO-8859-1: the u with diaeresis is the byte 252. *)
Definition zurich_latin1 : string :=
  String "Z" (String (ascii_of_nat 252) "rich").

(** Give a field a value, or remove it. *)
Definition set_field (k : string) (o : option pyval) (d : gmap string pyval) :
  gmap string pyval :=
  partial_alter (fun _ => o) k d.

(** A record with nothing but its NodeID, given as text. *)
Definition bare_fields : gmap string pyval := {["NodeID" := PyStr "300"]}.

(** Every optional field present and blank. *)
Definition blank_fields : gmap string pyval :=
  list_to_map [("NodeID", PyInt 7); ("NodeIP", PyStr ""); ("location", PyNone);
               ("Caption", PyNone); ("Status", PyStr ""); ("Vendor", PyStr "")].

(** Records with a text that ISO-8859-1 cannot encode. *)
Definition kanji_caption : gmap string pyval :=
  list_to_map [("NodeID", PyInt 5); ("Caption", PyStr "日本"); ("Status", PyStr "Down")].

Definition kanji_location : gmap string pyval :=
  list_to_map [("NodeID", PyInt 5); ("location", PyStr "東京")].

(** A record whose NodeIP is the number 1.5. *)
Definition float_ip : gmap string pyval :=
  list_to_map [("NodeID", PyInt 5); ("NodeIP", PyFloat (S754_finite false 3 (-1)))].

(** A record carrying a field the translator does not know. *)
Definition core_sw_annotated : gmap string pyval :=
  <["PollInterval" := PyInt 120]> core_sw_fields.

(** The scenario record with its NodeID given as text. *)
Definition core_sw_text_id : gmap string pyval :=
  <["NodeID" := PyStr "5"]> core_sw_fields.

Definition node (n : Z) : pyval := PyDict {["NodeID" := PyInt n]}.

Definition all_clear : reply := Reply4 no_indication plain_zero 0 [].

Definition no_such_name : status := {| status_value := 2; prettyPrint := "noSuchName" |}.


Definition respond (code : Z) (body : pyval) : result Response :=
  Ok {| status_code := code; json := Ok body |}.

(** An outside where every target is created, every delivery takes 1 ms and
    no sleep overshoots. *)
Definition outside (http : result Response) (replies : nat -> result reply) : Outside :=
  {| http_reply := http;
     http_ms := 7;
     target_reply := fun _ => Ok tt;
     trap_reply := replies;
     trap_ms := fun _ => 1%N;
     oversleep_ms := fun _ => 0%N |}.

(** Three nodes; the second delivery is answered with a protocol error. *)
Definition second_refused : Outside :=
  outside (respond 200 (PyList [node 1; node 2; node 3]))
    (fun k => if (k =? 1)%nat then Ok (Reply4 no_indication no_such_name 4 [])
              else Ok all_clear).

(** Three nodes, every delivery accepted. *)
Definition all_accepted : Outside :=
  outside (respond 200 (PyList [node 1; node 2; node 3])) (fun _ => Ok all_clear).

(** A body that is a list, but not of records. *)
Definition list_of_ints : Outside :=
  outside (respond 200 (PyList [PyInt 1])) (fun _ => Ok all_clear).

Definition unauthorized : Outside :=
  outside (respond 401 (PyDict ∅)) (fun _ => Ok all_clear).


(** The request itself raises: no response at all. *)
Definition unreachable : Outside :=
  outside (Raise (LibraryError "ConnectionError")) (fun _ => Ok all_clear).

(** An empty list of nodes. *)
Definition no_nodes : Outside :=
  outside (respond 200 (PyList [])) (fun _ => Ok all_clear).

(** The receiver's name cannot be resolved: no target is created. *)
Definition no_route : Outside :=
  {| http_reply := respond 200 (PyList [node 1]);
     http_ms := 7;
     target_reply := fun _ => Raise (LibraryError "PySnmpError");
     trap_reply := fun _ => Ok all_clear;
     trap_ms := fun _ => 1%N;
     oversleep_ms := fun _ => 0%N |}.

(** The world in which the loop of [main] starts, after a fetch of [n]
    records that began at [t0] and left the world [w1]. *)
Definition loop_start (t0 : N) (n : nat) (w1 : World) : World :=
  {| clock := clock w1;
     attempts := attempts w1;
     trace := trace w1 ++ [ExecLog (ApiFetch n (clock w1 - t0))] |}.


(** * Properties *)

Lemma load_settings_empty (rt : Runtime) : load_settings rt ∅ = Ok default_settings.
Proof. reflexivity. Qed.

Lemma lower_unknown (rt : Runtime) : lower rt "unknown" = "unknown".
Proof. reflexivity. Qed.

(** ** ASCII text and octet strings *)

Lemma is_ascii_app (a b : string) : is_ascii (a +:+ b) = is_ascii a && is_ascii b.
Proof.
  induction a as [|c a IH]; [ reflexivity | ].
  change (is_ascii (String c (a +:+ b)) = is_ascii (String c a) && is_ascii b).
  cbn [is_ascii]. rewrite IH. by rewrite andb_assoc.
Qed.

Lemma length_string_app (a b : string) :
  String.length (a +:+ b) = (String.length a + String.length b)%nat.
Proof.
  induction a as [|c a IH]; [ reflexivity | ].
  change (String.length (String c (a +:+ b)) = (S (String.length a) + String.length b)%nat).
  cbn [String.length]. by rewrite IH.
Qed.

Lemma latin1_encode_ascii (s : string) : is_ascii s = true -> latin1_encode s = Some s.
Proof.
  induction s as [|c s IH]; [ reflexivity | ].
  cbn [is_ascii latin1_encode]. intros [Hc Hs]%andb_prop. by rewrite Hc, IH.
Qed.

Lemma octet_ok_ascii (s : string) :
  is_ascii s = true ->
  octet_ok s = (Z.of_nat (String.length s) <=? OCTETS_MAX) /\ latin1 s = s.
Proof.
  intros Hs. unfold octet_ok, latin1. by rewrite latin1_encode_ascii.
Qed.

Lemma pretty_N_char_ascii (r : N) : (nat_of_ascii (pretty_N_char r) <? 128)%nat = true.
Proof. unfold pretty_N_char. repeat case_match; reflexivity. Qed.

Lemma pretty_N_go_ascii (x : N) (s : string) :
  is_ascii s = true -> is_ascii (pretty_N_go x s) = true.
Proof.
  revert s. induction (N.lt_wf_0 x) as [x _ IH]. intros s Hs.
  destruct (N.eq_dec x 0%N) as [->|Hnz]; [ by rewrite pretty_N_go_0 | ].
  rewrite pretty_N_go_step by lia. apply IH; [ apply N.div_lt; lia | ].
  cbn [is_ascii]. by rewrite pretty_N_char_ascii, Hs.
Qed.

Lemma str_of_int_ascii (n : Z) : is_ascii (str_of_int n) = true.
Proof.
  unfold str_of_int, pretty, pretty_Z. destruct n as [|p|p]; [ reflexivity | | ].
  - unfold pretty, pretty_positive, pretty, pretty_N.
    destruct (decide (N.pos p = 0%N)); [ reflexivity | ]. by apply pretty_N_go_ascii.
  - rewrite is_ascii_app. unfold pretty, pretty_positive, pretty, pretty_N.
    destruct (decide (N.pos p = 0%N)); [ reflexivity | ].
    by rewrite pretty_N_go_ascii.
Qed.

Lemma str_of_int_byte (a : Z) :
  0 <= a < 256 -> (String.length (str_of_int a) <= 3)%nat.
Proof.
  intros Ha.
  assert (Hall : Forall (fun a => (String.length (str_of_int a) <= 3)%nat) (seqZ 0 256)).
  { apply Forall_forall. intros x Hx.
    assert (Hb : forallb (fun a => (String.length (str_of_int a) <=? 3)%nat) (seqZ 0 256) = true)
      by (vm_compute; reflexivity).
    rewrite forallb_forall in Hb. apply Nat.leb_le, Hb. by apply list_elem_of_In. }
  rewrite Forall_forall in Hall. apply Hall, elem_of_seqZ. lia.
Qed.

Lemma ip_mock_por_nodeid_fits (n : Z) :
  octet_ok (ip_mock_por_nodeid n) = true /\ latin1 (ip_mock_por_nodeid n) = ip_mock_por_nodeid n.
Proof.
  assert (Hascii : is_ascii (ip_mock_por_nodeid n) = true).
  { unfold ip_mock_por_nodeid. by rewrite !is_ascii_app, !str_of_int_ascii. }
  destruct (octet_ok_ascii _ Hascii) as [-> ->]. split; [ | reflexivity ].
  unfold ip_mock_por_nodeid. rewrite !length_string_app.
  pose proof (str_of_int_byte ((n `div` 256) `mod` 256)
                (Z.mod_pos_bound _ 256 ltac:(lia))) as Ha.
  pose proof (str_of_int_byte (n `mod` 256) (Z.mod_pos_bound _ 256 ltac:(lia))) as Hb.
  cbn [String.length]. unfold OCTETS_MAX. apply Z.leb_le. lia.
Qed.

Lemma OctetString_text (s : string) :
  octet_ok s = true -> OctetString (PyStr s) = Ok (Octets (latin1 s)).
Proof.
  unfold OctetString, prettyIn, octet_ok, latin1, sized.
  destruct (latin1_encode s) as [bs|]; [ | discriminate ].
  cbn [mbind result_bind from_option id]. by intros ->.
Qed.

Lemma OctetString_octets (v : pyval) (x : smi_value) :
  OctetString v = Ok x -> is_octets x = true.
Proof.
  unfold OctetString, sized. destruct (prettyIn v) as [bs|]; cbn [mbind result_bind];
    [ | discriminate ].
  destruct (Z.of_nat (String.length bs) <=? OCTETS_MAX); [ | discriminate ].
  by intros [= <-].
Qed.

Lemma OctetString_text_inv (s : string) (v : smi_value) :
  OctetString (PyStr s) = Ok v -> octet_ok s = true /\ v = Octets (latin1 s).
Proof.
  unfold OctetString, prettyIn, octet_ok, latin1, sized.
  destruct (latin1_encode s) as [bs|]; [ | discriminate ].
  cbn [mbind result_bind from_option id].
  destruct (Z.of_nat (String.length bs) <=? OCTETS_MAX); [ | discriminate ].
  by intros [= <-].
Qed.

(** ** The translator *)

Section TranslatorFacts.

Variable rt : Runtime.
Variable cfg : Settings.

(** The five locals, by cases on the presence of their key. *)
Lemma location_of_cases (d : gmap string pyval) :
  location_of rt cfg d =
    match d !! "location" with
    | Some v => if py_bool v then py_str rt v else DEFAULT_LOCATION cfg
    | None => DEFAULT_LOCATION cfg
    end.
Proof.
  unfold location_of, py_or, dict_get.
  destruct (d !! "location") as [v|]; cbn [from_option id py_bool];
    [ destruct (py_bool v) | ]; reflexivity.
Qed.

Lemma status_of_cases (d : gmap string pyval) :
  status_of rt d =
    match d !! "Status" with
    | Some v => lower rt (py_str rt v)
    | None => "unknown"
    end.
Proof. unfold status_of, dict_get_or. destruct (d !! "Status"); reflexivity. Qed.

Lemma caption_of_cases (d : gmap string pyval) (node_id : Z) :
  caption_of rt d node_id =
    match d !! "Caption" with
    | Some v => py_str rt v
    | None => "node-" +:+ str_of_int node_id
    end.
Proof. unfold caption_of, dict_get_or. destruct (d !! "Caption"); reflexivity. Qed.

Lemma vendor_of_cases (d : gmap string pyval) :
  vendor_of rt d =
    match d !! "Vendor" with
    | Some v => py_str rt v
    | None => "unknown"
    end.
Proof. unfold vendor_of, dict_get_or. destruct (d !! "Vendor"); reflexivity. Qed.

Lemma node_ip_of_cases (d : gmap string pyval) (node_id : Z) :
  node_ip_of d node_id =
    match d !! "NodeIP" with
    | Some v => if py_bool v then v else PyStr (ip_mock_por_nodeid node_id)
    | None => PyStr (ip_mock_por_nodeid node_id)
    end.
Proof.
  unfold node_ip_of, py_or, dict_get.
  destruct (d !! "NodeIP") as [v|]; cbn [from_option id py_bool];
    [ destruct (py_bool v) | ]; reflexivity.
Qed.

(** The translation as the nine calls of [OctetString] leave it. *)
Lemma construir_varbinds_calls (d : gmap string pyval) (node_id : Z) :
  py_int rt (dict_get d "NodeID") = Ok node_id ->
  construir_varbinds rt cfg (PyDict d) =
    (v_trap ← OctetString (PyStr (ENTERPRISE_TRAP_OID cfg));
     v_location ← OctetString (PyStr (location_of rt cfg d));
     v_status ← OctetString (PyStr (status_of rt d));
     v_caption ← OctetString (PyStr (caption_of rt d node_id));
     v_node_ip ← OctetString (node_ip_of d node_id);
     v_node_id ← OctetString (PyStr (str_of_int node_id));
     v_vendor ← OctetString (PyStr (vendor_of rt d));
     Ok [ (ObjectIdentity "1.3.6.1.2.1.1.3.0", Octets "0");
          (ObjectIdentity "1.3.6.1.6.3.1.1.4.1.0", v_trap);
          (ObjectIdentity "1.3.6.1.6.3.1.1.4.3.0", Octets "1.3.6.1.4.1.11307");
          (ObjectIdentity "1.3.6.1.2.1.1.6.0", v_location);
          (ObjectIdentity (ENTERPRISE_TRAP_OID cfg +:+ ".1"), v_status);
          (ObjectIdentity (ENTERPRISE_TRAP_OID cfg +:+ ".2"), v_caption);
          (ObjectIdentity (ENTERPRISE_TRAP_OID cfg +:+ ".3"), v_node_ip);
          (ObjectIdentity (ENTERPRISE_TRAP_OID cfg +:+ ".4"), v_node_id);
          (ObjectIdentity (ENTERPRISE_TRAP_OID cfg +:+ ".5"), v_vendor) ]).
Proof.
  intros Hid. unfold construir_varbinds. cbn [get_method mbind result_bind].
  rewrite Hid. cbn [mbind result_bind].
  change (OctetString (PyStr "0")) with (Ok (Octets "0")).
  cbn [mbind result_bind].
  destruct (OctetString (PyStr (ENTERPRISE_TRAP_OID cfg))); [ | reflexivity ].
  cbn [mbind result_bind].
  change (OctetString (PyStr "1.3.6.1.4.1.11307")) with (Ok (Octets "1.3.6.1.4.1.11307")).
  reflexivity.
Qed.

(** The translation of a record whose NodeID coerces and whose texts an octet
    string can carry. *)
Lemma construir_varbinds_fields (d : gmap string pyval) (node_id : Z) :
  py_int rt (dict_get d "NodeID") = Ok node_id ->
  fits_octets rt cfg d node_id = true ->
  construir_varbinds rt cfg (PyDict d) =
    Ok [ (ObjectIdentity "1.3.6.1.2.1.1.3.0", Octets "0");
         (ObjectIdentity "1.3.6.1.6.3.1.1.4.1.0", Octets (latin1 (ENTERPRISE_TRAP_OID cfg)));
         (ObjectIdentity "1.3.6.1.6.3.1.1.4.3.0", Octets "1.3.6.1.4.1.11307");
         (ObjectIdentity "1.3.6.1.2.1.1.6.0", Octets (latin1 (location_of rt cfg d)));
         (ObjectIdentity (ENTERPRISE_TRAP_OID cfg +:+ ".1"), Octets (latin1 (status_of rt d)));
         (ObjectIdentity (ENTERPRISE_TRAP_OID cfg +:+ ".2"),
          Octets (latin1 (caption_of rt d node_id)));
         (ObjectIdentity (ENTERPRISE_TRAP_OID cfg +:+ ".3"),
          Octets (latin1 (py_str rt (node_ip_of d node_id))));
         (ObjectIdentity (ENTERPRISE_TRAP_OID cfg +:+ ".4"), Octets (str_of_int node_id));
         (ObjectIdentity (ENTERPRISE_TRAP_OID cfg +:+ ".5"), Octets (latin1 (vendor_of rt d))) ].
Proof.
  intros Hid Hfits. rewrite (construir_varbinds_calls d node_id Hid).
  unfold fits_octets in Hfits.
  repeat (apply andb_prop in Hfits as [Hfits ?]).
  destruct (node_ip_of d node_id) as [| | | |ip| |]; try discriminate.
  rewrite !OctetString_text by done. cbn [mbind result_bind py_str].
  by rewrite (proj2 (octet_ok_ascii _ (str_of_int_ascii node_id))).
Qed.

(** What a returned list is made of. *)
Lemma construir_varbinds_shape (nodo : pyval) (vbs : list varbind) :
  construir_varbinds rt cfg nodo = Ok vbs ->
  exists d node_id v_trap v_location v_status v_caption v_node_ip v_node_id v_vendor,
    nodo = PyDict d
    /\ py_int rt (dict_get d "NodeID") = Ok node_id
    /\ OctetString (PyStr (ENTERPRISE_TRAP_OID cfg)) = Ok v_trap
    /\ OctetString (PyStr (location_of rt cfg d)) = Ok v_location
    /\ OctetString (PyStr (status_of rt d)) = Ok v_status
    /\ OctetString (PyStr (caption_of rt d node_id)) = Ok v_caption
    /\ OctetString (node_ip_of d node_id) = Ok v_node_ip
    /\ OctetString (PyStr (str_of_int node_id)) = Ok v_node_id
    /\ OctetString (PyStr (vendor_of rt d)) = Ok v_vendor
    /\ vbs =
       [ (ObjectIdentity "1.3.6.1.2.1.1.3.0", Octets "0");
         (ObjectIdentity "1.3.6.1.6.3.1.1.4.1.0", v_trap);
         (ObjectIdentity "1.3.6.1.6.3.1.1.4.3.0", Octets "1.3.6.1.4.1.11307");
         (ObjectIdentity "1.3.6.1.2.1.1.6.0", v_location);
         (ObjectIdentity (ENTERPRISE_TRAP_OID cfg +:+ ".1"), v_status);
         (ObjectIdentity (ENTERPRISE_TRAP_OID cfg +:+ ".2"), v_caption);
         (ObjectIdentity (ENTERPRISE_TRAP_OID cfg +:+ ".3"), v_node_ip);
         (ObjectIdentity (ENTERPRISE_TRAP_OID cfg +:+ ".4"), v_node_id);
         (ObjectIdentity (ENTERPRISE_TRAP_OID cfg +:+ ".5"), v_vendor) ].
Proof.
  intros Hok.
  assert (exists d, nodo = PyDict d) as [d ->].
  { destruct nodo; try discriminate. eauto. }
  destruct (py_int rt (dict_get d "NodeID")) as [node_id|e] eqn:Hid.
  2: { unfold construir_varbinds in Hok. cbn [get_method mbind result_bind] in Hok.
       rewrite Hid in Hok. discriminate. }
  rewrite (construir_varbinds_calls d node_id Hid) in Hok.
  destruct (OctetString (PyStr (ENTERPRISE_TRAP_OID cfg))) as [v1|] eqn:H1; [ | discriminate ].
  destruct (OctetString (PyStr (location_of rt cfg d))) as [v2|] eqn:H2; [ | discriminate ].
  destruct (OctetString (PyStr (status_of rt d))) as [v3|] eqn:H3; [ | discriminate ].
  destruct (OctetString (PyStr (caption_of rt d node_id))) as [v4|] eqn:H4; [ | discriminate ].
  destruct (OctetString (node_ip_of d node_id)) as [v5|] eqn:H5; [ | discriminate ].
  destruct (OctetString (PyStr (str_of_int node_id))) as [v6|] eqn:H6; [ | discriminate ].
  destruct (OctetString (PyStr (vendor_of rt d))) as [v7|] eqn:H7; [ | discriminate ].
  cbn [mbind result_bind] in Hok. injection Hok as <-.
  exists d, node_id, v1, v2, v3, v4, v5, v6, v7. repeat split; done.
Qed.

(** A returned list holds the ISO-8859-1 bytes of the five texts, and what
    [OctetString] made of the NodeIP. *)
Lemma construir_varbinds_returned (d : gmap string pyval) (node_id : Z)
    (vbs : list varbind) :
  py_int rt (dict_get d "NodeID") = Ok node_id ->
  construir_varbinds rt cfg (PyDict d) = Ok vbs ->
  exists v_node_ip,
    OctetString (node_ip_of d node_id) = Ok v_node_ip
    /\ octet_ok (ENTERPRISE_TRAP_OID cfg) = true
    /\ octet_ok (location_of rt cfg d) = true
    /\ octet_ok (status_of rt d) = true
    /\ octet_ok (caption_of rt d node_id) = true
    /\ octet_ok (vendor_of rt d) = true
    /\ vbs =
       [ (ObjectIdentity "1.3.6.1.2.1.1.3.0", Octets "0");
         (ObjectIdentity "1.3.6.1.6.3.1.1.4.1.0", Octets (latin1 (ENTERPRISE_TRAP_OID cfg)));
         (ObjectIdentity "1.3.6.1.6.3.1.1.4.3.0", Octets "1.3.6.1.4.1.11307");
         (ObjectIdentity "1.3.6.1.2.1.1.6.0", Octets (latin1 (location_of rt cfg d)));
         (ObjectIdentity (ENTERPRISE_TRAP_OID cfg +:+ ".1"), Octets (latin1 (status_of rt d)));
         (ObjectIdentity (ENTERPRISE_TRAP_OID cfg +:+ ".2"),
          Octets (latin1 (caption_of rt d node_id)));
         (ObjectIdentity (ENTERPRISE_TRAP_OID cfg +:+ ".3"), v_node_ip);
         (ObjectIdentity (ENTERPRISE_TRAP_OID cfg +:+ ".4"), Octets (str_of_int node_id));
         (ObjectIdentity (ENTERPRISE_TRAP_OID cfg +:+ ".5"), Octets (latin1 (vendor_of rt d))) ].
Proof.
  intros Hid Hok.
  destruct (construir_varbinds_shape _ _ Hok)
    as (d' & n' & v1 & v2 & v3 & v4 & v5 & v6 & v7 & [= <-] & Hid' & H1 & H2 & H3 & H4 & H5
        & H6 & H7 & ->).
  rewrite Hid in Hid'. injection Hid' as <-.
  apply OctetString_text_inv in H1 as [? ->]. apply OctetString_text_inv in H2 as [? ->].
  apply OctetString_text_inv in H3 as [? ->]. apply OctetString_text_inv in H4 as [? ->].
  apply OctetString_text_inv in H6 as [? ->]. apply OctetString_text_inv in H7 as [? ->].
  rewrite (proj2 (octet_ok_ascii _ (str_of_int_ascii node_id))).
  exists v5. repeat split; done.
Qed.

Lemma set_field_other (k k' : string) (o : option pyval) (d : gmap string pyval) :
  k <> k' -> dict_get (set_field k o d) k' = dict_get d k'.
Proof.
  intros Hne. unfold dict_get, set_field. by rewrite lookup_partial_alter_ne.
Qed.

End TranslatorFacts.

(** C1, as the program has it: for a record whose NodeID coerces to an
    integer, whose NodeIP is absent, falsy or text, and whose emitted texts
    are ISO-8859-1 text of at most 65535 characters, the translation returns
    exactly nine (OID, value) pairs in the fixed order sysUpTime.0 = "0",
    snmpTrapOID.0 = the enterprise root, generic-trap = "1.3.6.1.4.1.11307",
    sysLocation.0 = location, root.1 = lower-cased Status, root.2 = Caption,
    root.3 = NodeIP or the synthetic address, root.4 = NodeID as text,
    root.5 = Vendor, each value holding the ISO-8859-1 bytes of its text;
    whatever it returns, for any node, is nine pairs under these nine names
    in this order, every value an octet string and none of a numeric class;
    and the record of the end-to-end scenario gives "down", "core-sw",
    "10.199.0.5", "5", "unknown" in places five to nine. *)
Theorem construir_varbinds_layout (rt : Runtime) (cfg : Settings) :
  (forall (d : gmap string pyval) (node_id : Z),
     py_int rt (dict_get d "NodeID") = Ok node_id ->
     fits_octets rt cfg d node_id = true ->
     let root := ENTERPRISE_TRAP_OID cfg in
     let mock := ip_mock_por_nodeid node_id in
     let location :=
       match d !! "location" with
       | Some v => if py_bool v then py_str rt v else DEFAULT_LOCATION cfg
       | None => DEFAULT_LOCATION cfg
       end in
     let status :=
       match d !! "Status" with
       | Some v => lower rt (py_str rt v)
       | None => "unknown"
       end in
     let caption :=
       match d !! "Caption" with
       | Some v => py_str rt v
       | None => "node-" +:+ str_of_int node_id
       end in
     let node_ip :=
       match d !! "NodeIP" with
       | Some v => if py_bool v then py_str rt v else mock
       | None => mock
       end in
     let vendor :=
       match d !! "Vendor" with
       | Some v => py_str rt v
       | None => "unknown"
       end in
     construir_varbinds rt cfg (PyDict d) =
       Ok [ (ObjectIdentity "1.3.6.1.2.1.1.3.0", Octets "0");
            (ObjectIdentity "1.3.6.1.6.3.1.1.4.1.0", Octets (latin1 root));
            (ObjectIdentity "1.3.6.1.6.3.1.1.4.3.0", Octets "1.3.6.1.4.1.11307");
            (ObjectIdentity "1.3.6.1.2.1.1.6.0", Octets (latin1 location));
            (ObjectIdentity (root +:+ ".1"), Octets (latin1 status));
            (ObjectIdentity (root +:+ ".2"), Octets (latin1 caption));
            (ObjectIdentity (root +:+ ".3"), Octets (latin1 node_ip));
            (ObjectIdentity (root +:+ ".4"), Octets (str_of_int node_id));
            (ObjectIdentity (root +:+ ".5"), Octets (latin1 vendor)) ])
  /\ (forall (nodo : pyval) (vbs : list varbind),
        construir_varbinds rt cfg nodo = Ok vbs ->
        let root := ENTERPRISE_TRAP_OID cfg in
        length vbs = 9%nat
        /\ fst <$> vbs =
             ObjectIdentity <$>
               [ "1.3.6.1.2.1.1.3.0"; "1.3.6.1.6.3.1.1.4.1.0"; "1.3.6.1.6.3.1.1.4.3.0";
                 "1.3.6.1.2.1.1.6.0"; root +:+ ".1"; root +:+ ".2"; root +:+ ".3";
                 root +:+ ".4"; root +:+ ".5" ]
        /\ Forall (fun vb => is_octets (snd vb) = true) vbs)
  /\ (octet_ok (ENTERPRISE_TRAP_OID cfg) = true ->
      octet_ok (DEFAULT_LOCATION cfg) = true ->
      exists vbs,
        construir_varbinds rt cfg core_sw = Ok vbs
        /\ length vbs = 9%nat
        /\ snd <$> drop 4 vbs =
             [ Octets "down"; Octets "core-sw"; Octets "10.199.0.5"; Octets "5";
               Octets "unknown" ]).
Proof.
  split; [ | split ].
  - intros d node_id Hid Hfits. cbv zeta.
    rewrite (construir_varbinds_fields rt cfg d node_id Hid Hfits).
    rewrite location_of_cases, status_of_cases, caption_of_cases, vendor_of_cases,
      node_ip_of_cases.
    destruct (d !! "NodeIP") as [v|]; [ destruct (py_bool v) | ]; reflexivity.
  - intros nodo vbs Hok. cbv zeta.
    destruct (construir_varbinds_shape rt cfg _ _ Hok)
      as (d & n & v1 & v2 & v3 & v4 & v5 & v6 & v7 & _ & _ & H1 & H2 & H3 & H4 & H5 & H6
          & H7 & ->).
    split; [ reflexivity | ]. split; [ reflexivity | ].
    repeat (apply Forall_cons; split; [ by eauto using OctetString_octets | ]).
    apply Forall_nil_2.
  - intros Hroot Hloc. eexists. split.
    + apply (construir_varbinds_fields rt cfg core_sw_fields 5 eq_refl).
      unfold fits_octets.
      rewrite location_of_cases, status_of_cases, caption_of_cases, vendor_of_cases,
        node_ip_of_cases.
      change (core_sw_fields !! "location") with (@None pyval).
      change (core_sw_fields !! "Vendor") with (@None pyval).
      change (core_sw_fields !! "NodeIP") with (@None pyval).
      change (core_sw_fields !! "Status") with (Some (PyStr "Down")).
      change (core_sw_fields !! "Caption") with (Some (PyStr "core-sw")).
      rewrite Hroot, Hloc. reflexivity.
    + split; reflexivity.
Qed.

(** A record with every field present, text for its NodeID and a location
    outside ASCII, under the default settings. *)
Lemma construir_varbinds_layout_witness :
  py_int sample_runtime (dict_get edge_rtr_fields "NodeID") = Ok 12
  /\ fits_octets sample_runtime default_settings edge_rtr_fields 12 = true
  /\ construir_varbinds sample_runtime default_settings (PyDict edge_rtr_fields) =
       Ok [ (ObjectIdentity "1.3.6.1.2.1.1.3.0", Octets "0");
            (ObjectIdentity "1.3.6.1.6.3.1.1.4.1.0", Octets "1.3.6.1.4.1.11307.10");
            (ObjectIdentity "1.3.6.1.6.3.1.1.4.3.0", Octets "1.3.6.1.4.1.11307");
            (ObjectIdentity "1.3.6.1.2.1.1.6.0", Octets zurich_latin1);
            (ObjectIdentity "1.3.6.1.4.1.11307.10.1", Octets "up");
            (ObjectIdentity "1.3.6.1.4.1.11307.10.2", Octets "edge-rtr");
            (ObjectIdentity "1.3.6.1.4.1.11307.10.3", Octets "192.0.2.7");
            (ObjectIdentity "1.3.6.1.4.1.11307.10.4", Octets "12");
            (ObjectIdentity "1.3.6.1.4.1.11307.10.5", Octets "Cisco") ].
Proof.
  split; [ reflexivity | ]. split; [ reflexivity | ].
  exact (proj1 (construir_varbinds_layout sample_runtime default_settings)
           edge_rtr_fields 12 eq_refl eq_refl).
Defined.

(** A Caption that ISO-8859-1 cannot encode: NodeID coerces and no list is
    returned. *)
Lemma construir_varbinds_refuses_caption :
  py_int sample_runtime (dict_get kanji_caption "NodeID") = Ok 5
  /\ construir_varbinds sample_runtime default_settings (PyDict kanji_caption) =
       Raise (LibraryError "PyAsn1UnicodeEncodeError").
Proof. split; reflexivity. Qed.

(** C2: for a record whose NodeID coerces to an integer, a missing optional
    field resolves to its default: Status to "unknown", Caption to
    "node-<NodeID>", Vendor to "unknown", location to the configured default
    location.  The locals of lines 115-119 take these values, every list
    the translation returns carries them, and it returns one whenever the
    texts to emit are texts an octet string can carry. *)
Theorem construir_varbinds_defaults (rt : Runtime) (cfg : Settings)
    (d : gmap string pyval) (node_id : Z) :
  py_int rt (dict_get d "NodeID") = Ok node_id ->
  ((d !! "Status" = None -> status_of rt d = "unknown")
   /\ (d !! "Caption" = None -> caption_of rt d node_id = "node-" +:+ str_of_int node_id)
   /\ (d !! "Vendor" = None -> vendor_of rt d = "unknown")
   /\ (d !! "location" = None -> location_of rt cfg d = DEFAULT_LOCATION cfg))
  /\ (forall vbs,
        construir_varbinds rt cfg (PyDict d) = Ok vbs ->
        (d !! "Status" = None ->
         vbs !! 4%nat = Some (ObjectIdentity (ENTERPRISE_TRAP_OID cfg +:+ ".1"),
                              Octets "unknown"))
        /\ (d !! "Caption" = None ->
            vbs !! 5%nat = Some (ObjectIdentity (ENTERPRISE_TRAP_OID cfg +:+ ".2"),
                                 Octets ("node-" +:+ str_of_int node_id)))
        /\ (d !! "Vendor" = None ->
            vbs !! 8%nat = Some (ObjectIdentity (ENTERPRISE_TRAP_OID cfg +:+ ".5"),
                                 Octets "unknown"))
        /\ (d !! "location" = None ->
            vbs !! 3%nat = Some (ObjectIdentity "1.3.6.1.2.1.1.6.0",
                                 Octets (latin1 (DEFAULT_LOCATION cfg)))))
  /\ (fits_octets rt cfg d node_id = true ->
      exists vbs, construir_varbinds rt cfg (PyDict d) = Ok vbs).
Proof.
  intros Hid. split; [ | split ].
  - rewrite location_of_cases, status_of_cases, caption_of_cases, vendor_of_cases.
    repeat split; intros ->; reflexivity.
  - intros vbs Hok.
    destruct (construir_varbinds_returned rt cfg d node_id vbs Hid Hok)
      as (v_node_ip & _ & _ & _ & _ & _ & _ & ->).
    rewrite location_of_cases, status_of_cases, caption_of_cases, vendor_of_cases.
    repeat split; intros ->; try reflexivity.
    cbn [lookup list_lookup]. do 3 f_equal.
    apply octet_ok_ascii. by rewrite is_ascii_app, str_of_int_ascii.
  - intros Hfits. eexists. exact (construir_varbinds_fields rt cfg d node_id Hid Hfits).
Qed.

(** A record with nothing but its NodeID, given as text. *)
Lemma construir_varbinds_defaults_witness :
  py_int sample_runtime (dict_get bare_fields "NodeID") = Ok 300
  /\ exists vbs,
       construir_varbinds sample_runtime default_settings (PyDict bare_fields) = Ok vbs
       /\ snd <$> vbs !! 4%nat = Some (Octets "unknown")
       /\ snd <$> vbs !! 5%nat = Some (Octets "node-300")
       /\ snd <$> vbs !! 8%nat = Some (Octets "unknown")
       /\ snd <$> vbs !! 3%nat = Some (Octets "unknown").
Proof.
  split; [ reflexivity | ].
  destruct (construir_varbinds_defaults sample_runtime default_settings bare_fields 300
              eq_refl)
    as (_ & Hemit & Hret).
  destruct (Hret eq_refl) as [vbs Heq].
  destruct (Hemit vbs Heq) as (Hs & Hc & Hv & Hl).
  exists vbs. split; [ exact Heq | ].
  rewrite (Hs eq_refl), (Hc eq_refl), (Hv eq_refl), (Hl eq_refl).
  repeat split.
Defined.

(** C3: for a NodeID in [0, 65535] the synthetic address is "10.199.a.b" with
    a = (NodeID // 256) mod 256 and b = NodeID mod 256; both octets lie in
    [0, 255] and determine the NodeID; the same NodeID gives the same
    address. *)
Theorem ip_mock_por_nodeid_octets (node_id : Z) :
  0 <= node_id <= 65535 ->
  let a := (node_id `div` 256) `mod` 256 in
  let b := node_id `mod` 256 in
  ip_mock_por_nodeid node_id = "10.199." +:+ str_of_int a +:+ "." +:+ str_of_int b
  /\ 0 <= a <= 255 /\ 0 <= b <= 255
  /\ node_id = 256 * a + b
  /\ (forall again, again = node_id ->
        ip_mock_por_nodeid again = ip_mock_por_nodeid node_id).
Proof.
  intros Hrange a b. split; [ reflexivity | ].
  assert (Ha : a = node_id `div` 256).
  { subst a. apply Z.mod_small. split; [ apply Z.div_pos; lia | ].
    apply Z.div_lt_upper_bound; lia. }
  pose proof (Z.mod_pos_bound node_id 256 ltac:(lia)) as Hb.
  pose proof (Z.div_mod node_id 256 ltac:(lia)) as Hdm.
  fold b in Hb, Hdm.
  assert (0 <= node_id `div` 256 <= 255).
  { split; [ apply Z.div_pos; lia | ].
    apply Z.lt_succ_r. apply Z.div_lt_upper_bound; lia. }
  repeat split; try lia.
  intros again ->. reflexivity.
Qed.

Lemma ip_mock_por_nodeid_octets_witness :
  0 <= 4660 <= 65535
  /\ ip_mock_por_nodeid 4660 = "10.199.18.52"
  /\ 4660 = 256 * 18 + 52.
Proof.
  split; [ lia | ].
  destruct (ip_mock_por_nodeid_octets 4660 ltac:(lia)) as (Heq & _ & _ & Hsum & _).
  split; [ exact Heq | exact Hsum ].
Defined.

(** C8: the translation is a function of the record and of two settings only,
    the enterprise root and the default location: settings that agree on those
    two give the same varbind list, whatever else they hold; no world is read
    or written. *)
Theorem construir_varbinds_deterministic (rt : Runtime)
    (cfg cfg' : Settings) (nodo nodo' : pyval) :
  ENTERPRISE_TRAP_OID cfg = ENTERPRISE_TRAP_OID cfg' ->
  DEFAULT_LOCATION cfg = DEFAULT_LOCATION cfg' ->
  nodo = nodo' ->
  construir_varbinds rt cfg nodo = construir_varbinds rt cfg' nodo'.
Proof.
  intros Hroot Hloc <-. unfold construir_varbinds, location_of.
  rewrite Hroot, Hloc. reflexivity.
Qed.

(** Two runs configured for different servers and receivers. *)
Lemma construir_varbinds_deterministic_witness :
  construir_varbinds sample_runtime default_settings core_sw =
  construir_varbinds sample_runtime other_settings core_sw.
Proof.
  apply construir_varbinds_deterministic; reflexivity.
Defined.

(** C9, as the program has it: once NodeID coerces to an integer the
    translation returns, whatever the optional fields Caption, Status,
    Vendor, NodeIP and location hold and whether they are present at all,
    provided the texts it emits are ISO-8859-1 text of at most 65535
    characters and NodeIP, when truthy, is text. *)
Theorem construir_varbinds_total (rt : Runtime) (cfg : Settings)
    (d : gmap string pyval) (node_id : Z)
    (caption status vendor node_ip location : option pyval) :
  py_int rt (dict_get d "NodeID") = Ok node_id ->
  fits_octets rt cfg
    (set_field "Caption" caption (set_field "Status" status
    (set_field "Vendor" vendor (set_field "NodeIP" node_ip
    (set_field "location" location d))))) node_id = true ->
  exists vbs,
    construir_varbinds rt cfg
      (PyDict (set_field "Caption" caption (set_field "Status" status
              (set_field "Vendor" vendor (set_field "NodeIP" node_ip
              (set_field "location" location d)))))) = Ok vbs
    /\ length vbs = 9%nat.
Proof.
  intros Hid Hfits. eexists. split.
  - apply (construir_varbinds_fields rt cfg _ node_id); [ | exact Hfits ].
    rewrite !set_field_other by discriminate. exact Hid.
  - reflexivity.
Qed.

(** Optional fields holding a number, a boolean, an address and null, and
    one removed. *)
Lemma construir_varbinds_total_witness :
  py_int sample_runtime (dict_get core_sw_fields "NodeID") = Ok 5
  /\ exists vbs,
       construir_varbinds sample_runtime default_settings
         (PyDict (set_field "Caption" (Some (PyInt 42))
                 (set_field "Status" (Some (PyBool true))
                 (set_field "Vendor" None
                 (set_field "NodeIP" (Some (PyStr "192.0.2.7"))
                 (set_field "location" (Some PyNone) core_sw_fields)))))) = Ok vbs
       /\ length vbs = 9%nat.
Proof.
  split; [ reflexivity | ].
  exact (construir_varbinds_total sample_runtime default_settings core_sw_fields 5
           (Some (PyInt 42)) (Some (PyBool true)) None
           (Some (PyStr "192.0.2.7")) (Some PyNone) eq_refl eq_refl).
Defined.

(** NodeID coerces and the location is text, yet the translation raises: the
    text has characters ISO-8859-1 cannot encode. *)
Lemma construir_varbinds_not_total :
  py_int sample_runtime (dict_get kanji_location "NodeID") = Ok 5
  /\ kanji_location !! "location" = Some (PyStr "東京")
  /\ construir_varbinds sample_runtime default_settings (PyDict kanji_location) =
       Raise (LibraryError "PyAsn1UnicodeEncodeError").
Proof. repeat split. Qed.

(** C10: the fallbacks are asymmetric.  A NodeIP or location that is present
    but falsy (empty text, null, ...) is replaced by the synthetic address,
    respectively the default location.  A Caption, Status or Vendor that is
    present is taken as its text, never replaced: empty text stays empty and
    a null Caption becomes "None".  The locals of lines 115-119 take these
    values, every list the translation returns carries them, and it returns
    one whenever the texts to emit are texts an octet string can carry. *)
Theorem construir_varbinds_asymmetry (rt : Runtime) (cfg : Settings)
    (d : gmap string pyval) (node_id : Z) :
  py_int rt (dict_get d "NodeID") = Ok node_id ->
  ((forall v, d !! "NodeIP" = Some v -> py_bool v = false ->
      node_ip_of d node_id = PyStr (ip_mock_por_nodeid node_id))
   /\ (forall v, d !! "location" = Some v -> py_bool v = false ->
         location_of rt cfg d = DEFAULT_LOCATION cfg)
   /\ (forall v, d !! "Caption" = Some v -> caption_of rt d node_id = py_str rt v)
   /\ (forall v, d !! "Status" = Some v -> status_of rt d = lower rt (py_str rt v))
   /\ (forall v, d !! "Vendor" = Some v -> vendor_of rt d = py_str rt v)
   /\ py_bool (PyStr "") = false /\ py_bool PyNone = false
   /\ py_str rt (PyStr "") = "" /\ lower rt "" = "" /\ py_str rt PyNone = "None")
  /\ (forall vbs,
        construir_varbinds rt cfg (PyDict d) = Ok vbs ->
        (forall v, d !! "NodeIP" = Some v -> py_bool v = false ->
           snd <$> vbs !! 6%nat = Some (Octets (ip_mock_por_nodeid node_id)))
        /\ (forall v, d !! "location" = Some v -> py_bool v = false ->
              snd <$> vbs !! 3%nat = Some (Octets (latin1 (DEFAULT_LOCATION cfg))))
        /\ (forall v, d !! "Caption" = Some v ->
              snd <$> vbs !! 5%nat = Some (Octets (latin1 (py_str rt v))))
        /\ (forall v, d !! "Status" = Some v ->
              snd <$> vbs !! 4%nat = Some (Octets (latin1 (lower rt (py_str rt v)))))
        /\ (forall v, d !! "Vendor" = Some v ->
              snd <$> vbs !! 8%nat = Some (Octets (latin1 (py_str rt v))))
        /\ (d !! "Caption" = Some (PyStr "") -> snd <$> vbs !! 5%nat = Some (Octets ""))
        /\ (d !! "Status" = Some (PyStr "") -> snd <$> vbs !! 4%nat = Some (Octets ""))
        /\ (d !! "Vendor" = Some (PyStr "") -> snd <$> vbs !! 8%nat = Some (Octets ""))
        /\ (d !! "Caption" = Some PyNone -> snd <$> vbs !! 5%nat = Some (Octets "None")))
  /\ (fits_octets rt cfg d node_id = true ->
      exists vbs, construir_varbinds rt cfg (PyDict d) = Ok vbs).
Proof.
  intros Hid. split; [ | split ].
  - rewrite location_of_cases, status_of_cases, caption_of_cases, vendor_of_cases,
      node_ip_of_cases.
    repeat split; try (intros v ->; try intros ->; reflexivity).
  - intros vbs Hok.
    destruct (construir_varbinds_returned rt cfg d node_id vbs Hid Hok)
      as (v_node_ip & Hip & _ & _ & _ & _ & _ & ->).
    rewrite node_ip_of_cases in Hip.
    rewrite location_of_cases, status_of_cases, caption_of_cases, vendor_of_cases.
    repeat split.
    + intros v Hv Hfalse. rewrite Hv, Hfalse in Hip.
      rewrite (OctetString_text _ (proj1 (ip_mock_por_nodeid_fits node_id))) in Hip.
      injection Hip as <-. cbn [lookup list_lookup fmap option_fmap option_map snd].
      by rewrite (proj2 (ip_mock_por_nodeid_fits node_id)).
    + intros v -> Hv. rewrite Hv. reflexivity.
    + intros v ->. reflexivity.
    + intros v ->. reflexivity.
    + intros v ->. reflexivity.
    + intros ->. reflexivity.
    + intros ->. reflexivity.
    + intros ->. reflexivity.
    + intros ->. reflexivity.
  - intros Hfits. eexists. exact (construir_varbinds_fields rt cfg d node_id Hid Hfits).
Qed.

(** Every optional field present and blank. *)
Lemma construir_varbinds_asymmetry_witness :
  py_int sample_runtime (dict_get blank_fields "NodeID") = Ok 7
  /\ exists vbs,
       construir_varbinds sample_runtime default_settings (PyDict blank_fields) = Ok vbs
       /\ snd <$> vbs !! 6%nat = Some (Octets "10.199.0.7")
       /\ snd <$> vbs !! 3%nat = Some (Octets "unknown")
       /\ snd <$> vbs !! 5%nat = Some (Octets "None")
       /\ snd <$> vbs !! 4%nat = Some (Octets "")
       /\ snd <$> vbs !! 8%nat = Some (Octets "").
Proof.
  split; [ reflexivity | ].
  destruct (construir_varbinds_asymmetry sample_runtime default_settings blank_fields 7
              eq_refl)
    as (_ & Hemit & Hret).
  destruct (Hret eq_refl) as [vbs Heq].
  destruct (Hemit vbs Heq) as (Hip & Hloc & _ & _ & _ & _ & Hst & Hve & Hcap).
  exists vbs. split; [ exact Heq | ].
  rewrite (Hip (PyStr "") eq_refl eq_refl), (Hloc PyNone eq_refl eq_refl),
    (Hcap eq_refl), (Hst eq_refl), (Hve eq_refl).
  repeat split.
Defined.
(** ** The run *)

Section RunFacts.

Variable rt : Runtime.
Variable cfg : Settings.
Variable out : Outside.

Lemma requests_get_run (w : World) :
  requests_get cfg out w = (http_reply out, after_request cfg out w).
Proof. reflexivity. Qed.

Lemma obtener_nodos_cases (w : World) :
  fst (obtener_nodos cfg out w) =
    match http_reply out with
    | Raise e => Raise e
    | Ok r =>
        if status_code r =? 401 then Raise AuthError
        else if negb (status_code r =? 200) then
          Raise (UnexpectedResponseError (status_code r))
        else match json r with
             | Raise e => Raise e
             | Ok (PyList records) => Ok records
             | Ok _ => Raise MalformedPayloadError
             end
    end.
Proof.
  unfold obtener_nodos, logging_errors, mbind, M_bind. rewrite requests_get_run.
  destruct (http_reply out) as [r|e]; [ | reflexivity ].
  destruct (status_code r =? 401); [ reflexivity | ].
  destruct (negb (status_code r =? 200)); [ reflexivity | ].
  unfold lift. destruct (json r) as [[]|e]; reflexivity.
Qed.

Lemma obtener_nodos_ok (w : World) (r : Response) (records : list pyval) :
  http_reply out = Ok r -> status_code r = 200 -> json r = Ok (PyList records) ->
  obtener_nodos cfg out w = (Ok records, after_request cfg out w).
Proof.
  intros Hr Hs Hj.
  unfold obtener_nodos, logging_errors, mbind, M_bind. rewrite requests_get_run, Hr, Hs.
  cbn [Z.eqb Pos.eqb negb]. unfold lift. rewrite Hj. reflexivity.
Qed.

Lemma loop_body_ok (nodo : pyval) (w : World) :
  node_outcome rt cfg out (attempts w) nodo = Ok tt ->
  exists vb,
    construir_varbinds rt cfg nodo = Ok vb
    /\ loop_body rt cfg out nodo w = (Ok tt, after_turn cfg out nodo vb w).
Proof.
  unfold node_outcome. intros Hok.
  destruct (construir_varbinds rt cfg nodo) as [vb|e] eqn:Hvb; [ | discriminate ].
  exists vb. split; [ reflexivity | ].
  cbn [mbind result_bind] in Hok.
  unfold loop_body, enviar_trap, create_target, send_notification_func, sleep, emit, lift,
    mbind, M_bind.
  cbn [fst snd set_trace clock attempts trace]. rewrite Hvb.
  destruct (target_reply out (attempts w)) as [[]|e]; [ | discriminate ].
  cbn [mbind result_bind] in Hok.
  destruct (trap_reply out (attempts w)) as [res|e]; [ | discriminate ].
  cbn [mbind result_bind] in Hok. rewrite Hok.
  cbn [clock attempts trace]. unfold after_turn. rewrite <- !app_assoc. reflexivity.
Qed.

Lemma loop_body_ok_inv (nodo : pyval) (w w' : World) :
  loop_body rt cfg out nodo w = (Ok tt, w') ->
  node_outcome rt cfg out (attempts w) nodo = Ok tt.
Proof.
  unfold node_outcome.
  unfold loop_body, enviar_trap, create_target, send_notification_func, sleep, emit, lift,
    mbind, M_bind.
  cbn [fst snd set_trace clock attempts trace].
  destruct (construir_varbinds rt cfg nodo) as [vb|e]; [ | discriminate ].
  cbn [result_bind].
  destruct (target_reply out (attempts w)) as [[]|e]; [ | discriminate ].
  destruct (trap_reply out (attempts w)) as [res|e]; [ | discriminate ].
  destruct (check_reply res) as [[]|e] eqn:Hcheck; [ | discriminate ].
  intros _. cbn [result_bind]. exact Hcheck.
Qed.

(** How a failing turn of the loop leaves the world: the translation raised,
    or the target could not be created, or the notification was handed to the
    library. *)
Lemma loop_body_raises (nodo : pyval) (w w' : World) (e : exn) :
  loop_body rt cfg out nodo w = (Raise e, w') ->
  (construir_varbinds rt cfg nodo = Raise e
   /\ w' = set_trace w (trace w ++ [Translate nodo]))
  \/ (exists vb,
        construir_varbinds rt cfg nodo = Ok vb
        /\ ((target_reply out (attempts w) = Raise e
             /\ w' = set_trace w
                       (trace w ++ [Translate nodo;
                                    CreateTarget (TRAP_RECEIVER_IP cfg, TRAP_RECEIVER_PORT cfg)]))
            \/ w' = {| clock := (clock w + trap_ms out (attempts w))%N;
                       attempts := S (attempts w);
                       trace := trace w ++
                                [Translate nodo;
                                 CreateTarget (TRAP_RECEIVER_IP cfg, TRAP_RECEIVER_PORT cfg);
                                 send_event cfg vb (TRAP_RECEIVER_IP cfg)] |})).
Proof.
  unfold loop_body, enviar_trap, create_target, send_notification_func, sleep, emit, lift,
    mbind, M_bind.
  cbn [fst snd set_trace clock attempts trace].
  destruct (construir_varbinds rt cfg nodo) as [vb|e1]; [ | intros [= <- <-]; left; done ].
  destruct (target_reply out (attempts w)) as [[]|e2].
  - destruct (trap_reply out (attempts w)) as [res|e3].
    + destruct (check_reply res) as [[]|e4]; [ discriminate | ].
      intros [= <- <-]. right. exists vb. split; [ done | right ].
      by rewrite <- !app_assoc.
    + intros [= <- <-]. right. exists vb. split; [ done | right ].
      by rewrite <- !app_assoc.
  - intros [= <- <-]. right. exists vb. split; [ done | left ].
    split; [ reflexivity | ]. unfold set_trace. cbn. by rewrite <- !app_assoc.
Qed.

Lemma loop_body_fail (nodo : pyval) (w : World) (e : exn) :
  node_outcome rt cfg out (attempts w) nodo = Raise e ->
  exists w' new,
    loop_body rt cfg out nodo w = (Raise e, w')
    /\ trace w' = trace w ++ Translate nodo :: new
    /\ (length (sent new) <= 1)%nat
    /\ (pacing new = [] \/ pacing new = [None])
    /\ summaries new = [] /\ successes new = [] /\ failures new = []
    /\ (clock w <= clock w')%N.
Proof.
  intros Hfail.
  destruct (loop_body rt cfg out nodo w) as [[[]|e'] w'] eqn:Hbody.
  { apply loop_body_ok_inv in Hbody. congruence. }
  assert (e' = e) as ->.
  { revert Hbody Hfail. unfold node_outcome.
    unfold loop_body, enviar_trap, create_target, send_notification_func, sleep, emit, lift,
      mbind, M_bind.
    cbn [fst snd set_trace clock attempts trace].
    destruct (construir_varbinds rt cfg nodo) as [vb|e1]; cbn [result_bind]; [ | congruence ].
    destruct (target_reply out (attempts w)) as [[]|e2]; cbn [result_bind]; [ | congruence ].
    destruct (trap_reply out (attempts w)) as [res|e3]; cbn [result_bind]; [ | congruence ].
    destruct (check_reply res) as [[]|e4]; congruence. }
  exists w'.
  destruct (loop_body_raises nodo w w' e Hbody)
    as [[_ ->] | (vb & _ & [[_ ->] | ->])].
  - exists []. cbn. repeat split; [ auto | by left | apply N.le_refl ].
  - eexists [_]. cbn. repeat split; [ auto | by left | apply N.le_refl ].
  - eexists [_; _]. cbn. repeat split; [ auto | by right | apply N.le_add_r ].
Qed.

(** What a loop that ran to its end has done. *)
Lemma for_each_returns (nodos : list pyval) (w w' : World) :
  for_each nodos (loop_body rt cfg out) w = (Ok tt, w') ->
  exists new,
    trace w' = trace w ++ new
    /\ translated new = nodos
    /\ length (sent new) = length nodos
    /\ pacing new = concat (replicate (length nodos) [None; Some 20%N])
    /\ summaries new = [] /\ successes new = [] /\ failures new = []
    /\ (clock w + 20 * N.of_nat (length nodos) <= clock w')%N.
Proof.
  revert w. induction nodos as [|nodo nodos IH]; intros w Hrun.
  - cbn in Hrun. injection Hrun as <-. exists []. rewrite app_nil_r.
    repeat split. cbn. lia.
  - cbn [for_each] in Hrun. unfold mbind, M_bind in Hrun.
    destruct (loop_body rt cfg out nodo w) as [[[]|e] w1] eqn:Hbody; [ | discriminate ].
    destruct (loop_body_ok nodo w (loop_body_ok_inv _ _ _ Hbody)) as (vb & _ & Hw1).
    rewrite Hbody in Hw1. injection Hw1 as ->.
    destruct (IH _ Hrun) as (new & Ht & Htr & Hsent & Hpace & Hsum & Hsuc & Hfail & Hclock).
    exists ([Translate nodo; CreateTarget (TRAP_RECEIVER_IP cfg, TRAP_RECEIVER_PORT cfg);
              send_event cfg vb (TRAP_RECEIVER_IP cfg); Sleep 20] ++ new).
    rewrite Ht. cbn [after_turn trace clock] in *.
    split; [ by rewrite app_assoc | ].
    unfold translated, sent, pacing, summaries, successes, failures in *.
    rewrite !omap_app, Htr, Hpace, Hsum, Hsuc, Hfail.
    repeat split; [ cbn; by rewrite Hsent | cbn [length]; lia ].
Qed.

(** A loop whose first [length pre] nodes succeed and whose next node fails. *)
Lemma for_each_aborts (pre : list pyval) (bad : pyval) (rest : list pyval)
    (e : exn) (w : World) :
  (forall i nodo, pre !! i = Some nodo ->
     node_outcome rt cfg out (attempts w + i) nodo = Ok tt) ->
  node_outcome rt cfg out (attempts w + length pre) bad = Raise e ->
  exists w' new,
    for_each (pre ++ bad :: rest) (loop_body rt cfg out) w = (Raise e, w')
    /\ trace w' = trace w ++ new
    /\ translated new = pre ++ [bad]
    /\ (length (sent new) <= S (length pre))%nat
    /\ summaries new = [] /\ successes new = [] /\ failures new = [].
Proof.
  revert w. induction pre as [|nodo pre IH]; intros w Hpre Hbad.
  - cbn [app length] in *. rewrite Nat.add_0_r in Hbad.
    destruct (loop_body_fail bad w e Hbad)
      as (w' & new & Hrun & Ht & Hsent & _ & Hsum & Hsuc & Hfail & _).
    exists w', (Translate bad :: new). cbn [for_each]. unfold mbind, M_bind. rewrite Hrun.
    split; [ reflexivity | ]. split; [ exact Ht | ].
    unfold translated, sent, summaries, successes, failures in *. cbn.
    rewrite Hsum, Hsuc, Hfail. repeat split; [ | lia ].
    f_equal. clear -Hsent Hsum Hsuc Hfail Ht Hrun.
    revert Hrun Ht. intros Hrun Ht.
    destruct (loop_body_raises bad w w' e Hrun)
      as [[_ ->] | (vb & _ & [[_ ->] | ->])]; cbn [trace set_trace] in Ht;
      apply app_inv_head in Ht; injection Ht as <-; reflexivity.
  - pose proof (Hpre 0%nat nodo eq_refl) as H0. rewrite Nat.add_0_r in H0.
    destruct (loop_body_ok nodo w H0) as (vb & _ & Hturn).
    destruct (IH (after_turn cfg out nodo vb w)) as (w' & new & Hrun & Ht & Htr & Hsent & Hsum & Hsuc & Hfail).
    + intros i n Hi. cbn [after_turn attempts].
      replace (S (attempts w) + i)%nat with (attempts w + S i)%nat by lia.
      apply Hpre. exact Hi.
    + cbn [after_turn attempts].
      replace (S (attempts w) + length pre)%nat with (attempts w + length (nodo :: pre))%nat
        by (cbn [length]; lia).
      exact Hbad.
    + exists w', ([Translate nodo; CreateTarget (TRAP_RECEIVER_IP cfg, TRAP_RECEIVER_PORT cfg);
              send_event cfg vb (TRAP_RECEIVER_IP cfg); Sleep 20] ++ new).
      cbn [app for_each]. unfold mbind, M_bind. rewrite Hturn.
      split; [ exact Hrun | ].
      rewrite Ht. cbn [after_turn trace].
      split; [ by rewrite <- app_assoc | ].
      unfold translated, sent, summaries, successes, failures in *.
      cbn. rewrite Htr, Hsum, Hsuc, Hfail.
      repeat split. lia.
Qed.

(** Any loop, ended or aborted: [n] sends each followed by its sleep, then at
    most one send that failed. *)
Lemma for_each_paced (nodos : list pyval) (w w' : World) (r : result unit) :
  for_each nodos (loop_body rt cfg out) w = (r, w') ->
  exists (new : list event) (n : nat) (tail : list (option N)),
    trace w' = trace w ++ new
    /\ pacing new = concat (replicate n [None; Some 20%N]) ++ tail
    /\ (tail = [] \/ tail = [None])
    /\ summaries new = []
    /\ (clock w + 20 * N.of_nat n <= clock w')%N
    /\ (r = Ok tt -> n = length nodos /\ tail = []).
Proof.
  revert w. induction nodos as [|nodo nodos IH]; intros w Hrun.
  - cbn in Hrun. injection Hrun as <- <-. exists [], 0%nat, [].
    rewrite app_nil_r. repeat split; [ by left | cbn; lia ].
  - cbn [for_each] in Hrun. unfold mbind, M_bind in Hrun.
    destruct (node_outcome rt cfg out (attempts w) nodo) as [[]|e] eqn:Hnode.
    + destruct (loop_body_ok nodo w Hnode) as (vb & _ & Hturn). rewrite Hturn in Hrun.
      destruct (IH _ Hrun) as (new & n & tail & Ht & Hpace & Htail & Hsum & Hclock & Hok).
      exists ([Translate nodo; CreateTarget (TRAP_RECEIVER_IP cfg, TRAP_RECEIVER_PORT cfg);
              send_event cfg vb (TRAP_RECEIVER_IP cfg); Sleep 20] ++ new),
        (S n), tail.
      rewrite Ht. cbn [after_turn trace clock] in *.
      split; [ by rewrite app_assoc | ].
      unfold pacing, summaries in *. rewrite !omap_app, Hpace, Hsum.
      split; [ reflexivity | ]. split; [ exact Htail | ]. split; [ reflexivity | ].
      split; [ lia | ].
      intros Hr. destruct (Hok Hr) as [-> ->]. split; reflexivity.
    + destruct (loop_body_fail nodo w e Hnode)
        as (w1 & new & Hbody & Ht & _ & Hpace & Hsum & _ & _ & Hclock).
      rewrite Hbody in Hrun. injection Hrun as <- <-.
      exists (Translate nodo :: new), 0%nat, (pacing new).
      split; [ exact Ht | ]. split; [ reflexivity | ].
      split; [ exact Hpace | ]. split; [ exact Hsum | ].
      split; [ cbn; lia | discriminate ].
Qed.

(** The fetch leaves no send and no sleep behind, and time does not go back. *)
Lemma obtener_nodos_world (w : World) :
  exists new,
    trace (snd (obtener_nodos cfg out w)) = trace w ++ new
    /\ pacing new = [] /\ sent new = [] /\ summaries new = []
    /\ (clock w <= clock (snd (obtener_nodos cfg out w)))%N.
Proof.
  unfold obtener_nodos, logging_errors, mbind, M_bind. rewrite requests_get_run.
  assert (Hfail : forall e : exn,
    exists new,
      trace (snd (Raise (A:=list pyval) e,
                  snd (emit (ErrorLog "Error al obtener nodos" e) (after_request cfg out w))))
        = trace w ++ new
      /\ pacing new = [] /\ sent new = [] /\ summaries new = []
      /\ (clock w <= clock (snd (Raise (A:=list pyval) e,
                  snd (emit (ErrorLog "Error al obtener nodos" e)
                         (after_request cfg out w)))))%N).
  { intros e. eexists. cbn. rewrite <- app_assoc. repeat split. lia. }
  destruct (http_reply out) as [r|e]; [ | apply Hfail ].
  destruct (status_code r =? 401); [ apply Hfail | ].
  destruct (negb (status_code r =? 200)); [ apply Hfail | ].
  unfold lift. destruct (json r) as [[]|e]; try apply Hfail.
  eexists. cbn. repeat split. lia.
Qed.

End RunFacts.

(** ** The fetcher *)

Lemma fetch_errors_distinct (code : Z) :
  AuthError <> MalformedPayloadError
  /\ UnexpectedResponseError code <> AuthError
  /\ UnexpectedResponseError code <> MalformedPayloadError.
Proof. repeat split; discriminate. Qed.

(** C4, as the program has it: 401 raises the credentials error; any other
    status than 200 raises the unexpected-response error; a decoded body that
    is not a list raises the payload error; a list is returned as it is,
    without looking at its elements; and nothing is returned unless the
    status is 200 and the body a list. *)
Theorem obtener_nodos_outcomes (cfg : Settings) (out : Outside) (w : World) (r : Response) :
  http_reply out = Ok r ->
  (status_code r = 401 -> fst (obtener_nodos cfg out w) = Raise AuthError)
  /\ (status_code r <> 401 -> status_code r <> 200 ->
      fst (obtener_nodos cfg out w) = Raise (UnexpectedResponseError (status_code r)))
  /\ (forall data, status_code r = 200 -> json r = Ok data ->
      (forall l, data <> PyList l) ->
      fst (obtener_nodos cfg out w) = Raise MalformedPayloadError)
  /\ (forall records, status_code r = 200 -> json r = Ok (PyList records) ->
      fst (obtener_nodos cfg out w) = Ok records)
  /\ (forall records, fst (obtener_nodos cfg out w) = Ok records ->
      status_code r = 200 /\ json r = Ok (PyList records))
  /\ AuthError <> MalformedPayloadError
  /\ UnexpectedResponseError (status_code r) <> AuthError
  /\ UnexpectedResponseError (status_code r) <> MalformedPayloadError.
Proof.
  intros Hr. rewrite obtener_nodos_cases, Hr.
  split; [ | split; [ | split; [ | split; [ | split ] ] ] ].
  - intros ->. reflexivity.
  - intros H401 H200.
    destruct (Z.eqb_spec (status_code r) 401); [ contradiction | ].
    destruct (Z.eqb_spec (status_code r) 200); [ contradiction | ]. reflexivity.
  - intros data -> -> Hnot. cbn [Z.eqb Pos.eqb negb].
    destruct data; try reflexivity. exfalso. by eapply Hnot.
  - intros records -> ->. reflexivity.
  - intros records.
    destruct (Z.eqb_spec (status_code r) 401); [ discriminate | ].
    destruct (Z.eqb_spec (status_code r) 200) as [H200|]; [ | discriminate ].
    cbn [negb]. destruct (json r) as [[]|]; try discriminate.
    intros [= ->]. split; [ exact H200 | reflexivity ].
  - apply fetch_errors_distinct.
Qed.

Lemma obtener_nodos_outcomes_witness :
  fst (obtener_nodos default_settings unauthorized boot) = Raise AuthError.
Proof.
  exact (proj1 (obtener_nodos_outcomes default_settings unauthorized boot
                  {| status_code := 401; json := Ok (PyDict ∅) |} eq_refl) eq_refl).
Defined.

(** A body that is a list of integers is no sequence of records, and it is
    returned all the same. *)
Lemma obtener_nodos_returns_non_records :
  is_record_sequence (PyList [PyInt 1]) = false
  /\ http_reply list_of_ints = respond 200 (PyList [PyInt 1])
  /\ fst (obtener_nodos default_settings list_of_ints boot) = Ok [PyInt 1].
Proof. repeat split. Qed.

(** ** The sender *)




(** ** The orchestrator *)

Lemma script_failed (rt : Runtime) (cfg : Settings) (out : Outside)
    (w w' : World) (e : exn) :
  main rt cfg out w = (Raise e, w') ->
  script rt cfg out w =
    {| clock := clock w'; attempts := attempts w';
       trace := trace w' ++ [ErrorLog "Fallo en BIFROST sender" e; PrintFailure e] |}.
Proof.
  intros Hmain. unfold script. rewrite Hmain.
  unfold emit, mbind, M_bind, set_trace. cbn. by rewrite <- app_assoc.
Qed.

(** C5: when the nodes before the k-th are handled and the k-th fails, in
    translation or in delivery, the run stops there: the nodes translated are
    those up to the k-th, at most k sends were attempted, no send summary is
    logged, no success is printed, and the failure is printed. *)
Theorem script_aborts_at_first_failure (rt : Runtime) (cfg : Settings)
    (out : Outside) (r : Response) (pre : list pyval) (bad : pyval)
    (rest : list pyval) (e : exn) :
  http_reply out = Ok r -> status_code r = 200 ->
  json r = Ok (PyList (pre ++ bad :: rest)) ->
  (forall i nodo, pre !! i = Some nodo -> node_outcome rt cfg out i nodo = Ok tt) ->
  node_outcome rt cfg out (length pre) bad = Raise e ->
  let t := trace (script rt cfg out boot) in
  fst (main rt cfg out boot) = Raise e
  /\ translated t = pre ++ [bad]
  /\ (length (sent t) <= S (length pre))%nat
  /\ summaries t = []
  /\ successes t = []
  /\ failures t = [e].
Proof.
  intros Hr Hs Hj Hpre Hbad t.
  destruct (for_each_aborts rt cfg out pre bad rest e
              {| clock := clock (after_request cfg out boot);
                 attempts := 0;
                 trace := trace (after_request cfg out boot) ++
                          [ExecLog (ApiFetch (length (pre ++ bad :: rest))
                                      (clock (after_request cfg out boot) - 0))] |})
    as (w' & new & Hrun & Ht & Htr & Hsent & Hsum & Hsuc & Hfail);
    [ exact Hpre | exact Hbad | ].
  assert (Hmain : main rt cfg out boot = (Raise e, w')).
  { unfold main, mbind, M_bind, perf_counter.
    rewrite (obtener_nodos_ok cfg out boot r _ Hr Hs Hj).
    unfold emit, set_trace. cbn [clock attempts trace boot after_request] in *.
    rewrite Hrun. reflexivity. }
  subst t. rewrite (script_failed _ _ _ _ _ _ Hmain), Hmain. cbn [fst trace]. rewrite Ht.
  unfold translated, sent, summaries, successes, failures in *.
  cbn [after_request trace boot app]. cbn. rewrite !omap_app, Htr, Hsum, Hsuc, Hfail.
  cbn. repeat split; [ by rewrite app_nil_r | rewrite length_app; cbn; lia ].
Qed.

(** The second of three deliveries refused. *)
Lemma script_aborts_at_first_failure_witness :
  let t := trace (script sample_runtime default_settings second_refused boot) in
  fst (main sample_runtime default_settings second_refused boot) =
    Raise (RuntimeError "noSuchName at 4")
  /\ translated t = [node 1; node 2]
  /\ (length (sent t) <= 2)%nat
  /\ summaries t = []
  /\ successes t = []
  /\ failures t = [RuntimeError "noSuchName at 4"].
Proof.
  refine (script_aborts_at_first_failure sample_runtime default_settings second_refused
            {| status_code := 200; json := Ok (PyList [node 1; node 2; node 3]) |}
            [node 1] (node 2) [node 3] (RuntimeError "noSuchName at 4")
            eq_refl eq_refl eq_refl _ eq_refl).
  intros [|i] nodo Hi; [ | discriminate ].
  injection Hi as <-. reflexivity.
Defined.

(** C7: in any run, ended or aborted, the N sends that succeeded are each
    followed by a 20 ms sleep before the next send, so the run takes at least
    N x 20 ms; and in a run that sends all its N nodes the send time that is
    logged is at least (N - 1) x 20 ms. *)
Theorem main_pacing (rt : Runtime) (cfg : Settings) (out : Outside)
    (w w' : World) (r : result unit) :
  main rt cfg out w = (r, w') ->
  exists (new : list event) (n : nat) (tail : list (option N)),
    trace w' = trace w ++ new
    /\ pacing new = concat (replicate n [None; Some 20%N]) ++ tail
    /\ (tail = [] \/ tail = [None])
    /\ (clock w + 20 * N.of_nat n <= clock w')%N
    /\ (r = Ok tt ->
        tail = []
        /\ length (sent new) = n
        /\ exists send_ms,
             summaries new = [(n, send_ms)]
             /\ 20 * (Z.of_nat n - 1) <= Z.of_N send_ms).
Proof.
  intros Hmain. unfold main, mbind, M_bind, perf_counter in Hmain.
  destruct (obtener_nodos_world cfg out w) as (new0 & Ht0 & Hpace0 & Hsent0 & Hsum0 & Hclock0).
  destruct (obtener_nodos cfg out w) as [[nodos|e] w1] eqn:Hfetch; cbn [snd] in *.
  - unfold emit, set_trace in Hmain. cbn [clock attempts trace] in Hmain.
    match type of Hmain with
    | context [for_each nodos ?body ?w2] =>
        destruct (for_each nodos body w2) as [[[]|e] w3] eqn:Hloop
    end.
    + injection Hmain as <- <-.
      pose proof (for_each_returns _ _ _ _ _ _ Hloop)
        as (new & Ht & _ & Hsent & Hpace & Hsum & _ & _ & Hclock).
      cbn [clock attempts trace] in *.
      exists (new0 ++ [ExecLog (ApiFetch (length nodos) (clock w1 - clock w))] ++ new ++
              [ExecLog (TrapSendCompleted (length nodos) (clock w3 - clock w1)); PrintSuccess]),
        (length nodos), [].
      split; [ rewrite Ht, Ht0, <- !app_assoc; reflexivity | ].
      unfold pacing, sent, summaries in *.
      rewrite !omap_app, Hpace0, Hpace, Hsum0, Hsum, !length_app, Hsent, Hsent0. cbn.
      rewrite !app_nil_r.
      split; [ reflexivity | ]. split; [ by left | ].
      split; [ clear -Hclock Hclock0; lia | ].
      intros _. split; [ reflexivity | ]. split; [ lia | ].
      eexists. split; [ reflexivity | clear -Hclock Hclock0; lia ].
    + injection Hmain as <- <-.
      pose proof (for_each_paced _ _ _ _ _ _ _ Hloop)
        as (new & n & tail & Ht & Hpace & Htail & _ & Hclock & _).
      cbn [clock attempts trace] in *.
      exists (new0 ++ [ExecLog (ApiFetch (length nodos) (clock w1 - clock w))] ++ new), n, tail.
      split; [ rewrite Ht, Ht0, <- !app_assoc; reflexivity | ].
      unfold pacing in *. rewrite !omap_app, Hpace0, Hpace. cbn.
      split; [ reflexivity | ]. split; [ exact Htail | ].
      split; [ lia | discriminate ].
  - injection Hmain as <- <-. exists new0, 0%nat, [].
    split; [ exact Ht0 | ]. split; [ exact Hpace0 | ]. split; [ by left | ].
    split; [ cbn; lia | discriminate ].
Qed.

(** Three nodes, each delivery taking 1 ms: 63 ms are logged. *)
Lemma main_pacing_witness :
  exists (w' : World) (send_ms : N),
    main sample_runtime default_settings all_accepted boot = (Ok tt, w')
    /\ summaries (trace w') = [(3%nat, send_ms)]
    /\ pacing (trace w') = [None; Some 20%N; None; Some 20%N; None; Some 20%N]
    /\ 40 <= Z.of_N send_ms.
Proof.
  destruct (main sample_runtime default_settings all_accepted boot) as [r w'] eqn:Hmain.
  assert (Hr : r = Ok tt) by (vm_compute in Hmain; congruence).
  destruct (main_pacing sample_runtime default_settings all_accepted boot w' r Hmain)
    as (new & n & tail & Ht & Hpace & _ & _ & Hdone).
  destruct (Hdone Hr) as (-> & Hsent & send_ms & Hsum & Htime).
  cbn [trace boot app] in Ht. rewrite app_nil_r in Hpace.
  assert (Hn : n = 3%nat).
  { rewrite <- Hsent, <- Ht. vm_compute in Hmain. injection Hmain as _ <-. reflexivity. }
  rewrite Hn in Hsum, Hpace, Htime. exists w', send_ms. rewrite Ht, Hr.
  split; [ reflexivity | ]. split; [ exact Hsum | ]. split; [ exact Hpace | exact Htime ].
Defined.

(** * Further properties *)

(** ** Decimal text *)

Lemma digit_of_pretty_N_char (r : N) :
  (r < 10)%N -> digit_of (pretty_N_char r) = Some (Z.of_N r).
Proof.
  intros Hr.
  assert (r = 0 \/ r = 1 \/ r = 2 \/ r = 3 \/ r = 4 \/ r = 5 \/ r = 6 \/ r = 7
          \/ r = 8 \/ r = 9)%N as Hcases by lia.
  repeat (destruct Hcases as [-> | Hcases]; [ reflexivity | ]). subst r. reflexivity.
Qed.

Lemma pretty_N_char_no_dot (r : N) : Ascii.eqb (pretty_N_char r) "." = false.
Proof. unfold pretty_N_char. repeat case_match; reflexivity. Qed.

(** Reading the digits of [x] in front of [s] multiplies what was read by a
    power of ten and adds [x]. *)
Lemma read_digits_pretty_N_go (x : N) :
  (0 < x)%N ->
  exists k, forall st acc s,
    read_digits st acc (pretty_N_go x s) = read_digits AfterDigit (acc * k + Z.of_N x) s.
Proof.
  induction (N.lt_wf_0 x) as [x _ IH]. intros Hpos.
  assert (Hmod : (x `mod` 10 < 10)%N) by (apply N.mod_lt; lia).
  pose proof (N.div_mod x 10 ltac:(lia)) as Hdm.
  destruct (N.eq_dec (x `div` 10)%N 0%N) as [Hz|Hnz].
  - exists 10. intros st acc s. rewrite pretty_N_go_step, Hz, pretty_N_go_0 by done.
    cbn [read_digits]. rewrite digit_of_pretty_N_char by done. f_equal. clear IH. lia.
  - destruct (IH (x `div` 10)%N) as [k Hk];
      [ apply N.div_lt; lia | by apply N.neq_0_lt_0 | ].
    exists (10 * k). intros st acc s. rewrite pretty_N_go_step, Hk by done.
    cbn [read_digits]. rewrite digit_of_pretty_N_char by done. f_equal. clear IH Hk. lia.
Qed.

Lemma pretty_N_go_head (x : N) (s : string) :
  (0 < x)%N ->
  exists c rest d, pretty_N_go x s = String c rest /\ digit_of c = Some d.
Proof.
  revert s. induction (N.lt_wf_0 x) as [x _ IH]. intros s Hpos.
  rewrite pretty_N_go_step by done.
  destruct (N.eq_dec (x `div` 10)%N 0%N) as [Hz|Hnz].
  - rewrite Hz, pretty_N_go_0. do 3 eexists. split; [ reflexivity | ].
    apply digit_of_pretty_N_char, N.mod_lt. lia.
  - apply IH; [ apply N.div_lt; lia | ]. by apply N.neq_0_lt_0.
Qed.

Lemma pretty_N_go_no_dot (x : N) (s : string) :
  no_dot s = true -> no_dot (pretty_N_go x s) = true.
Proof.
  revert s. induction (N.lt_wf_0 x) as [x _ IH]. intros s Hs.
  destruct (N.eq_dec x 0%N) as [->|Hnz]; [ by rewrite pretty_N_go_0 | ].
  rewrite pretty_N_go_step by lia. apply IH; [ apply N.div_lt; lia | ].
  cbn [no_dot]. by rewrite pretty_N_char_no_dot, Hs.
Qed.

Lemma read_literal_digit_head (c : ascii) (rest : string) (d : Z) :
  digit_of c = Some d ->
  read_literal (String c rest) = read_digits AtStart 0 (String c rest).
Proof.
  destruct c as [[] [] [] [] [] [] [] []]; try discriminate; intros _; reflexivity.
Qed.

Lemma read_literal_pretty_pos (p : positive) :
  read_literal (pretty_N_go (N.pos p) "") = Some (Z.pos p).
Proof.
  destruct (pretty_N_go_head (N.pos p) "" ltac:(lia)) as (c & rest & d & Heq & Hd).
  destruct (read_digits_pretty_N_go (N.pos p) ltac:(lia)) as [k Hk].
  pose proof (Hk AtStart 0 "") as Hread. rewrite Heq in *.
  rewrite (read_literal_digit_head c rest d Hd), Hread. cbn. f_equal.
Qed.

(** A literal reads back the integer it was printed from. *)
Lemma read_literal_str_of_int (n : Z) : read_literal (str_of_int n) = Some n.
Proof.
  unfold str_of_int, pretty, pretty_Z. destruct n as [|p|p].
  - reflexivity.
  - apply read_literal_pretty_pos.
  - unfold pretty, pretty_positive, pretty, pretty_N. cbn [decide].
    destruct (decide (N.pos p = 0%N)) as [|_]; [ discriminate | ].
    destruct (pretty_N_go_head (N.pos p) "" ltac:(lia)) as (c & rest & d & Heq & Hd).
    destruct (read_digits_pretty_N_go (N.pos p) ltac:(lia)) as [k Hk].
    pose proof (Hk AtStart 0 "") as Hread.
    change (read_literal ("-" +:+ pretty_N_go (N.pos p) ""))
      with (Z.opp <$> read_digits AtStart 0 (pretty_N_go (N.pos p) "")).
    rewrite Hread. reflexivity.
Qed.

(** [int()] reads back what [str()] printed, within the limit on digits. *)
Lemma int_of_str_str_of_int (rt : Runtime) (n : Z) :
  (digit_count (str_of_int n) <= INT_MAX_STR_DIGITS)%nat ->
  int_of_str rt (str_of_int n) = Some n.
Proof.
  intros Hcap%Nat.leb_le. unfold int_of_str, int_of_ascii.
  by rewrite str_of_int_ascii, Hcap, read_literal_str_of_int.
Qed.

Lemma str_of_int_no_dot (n : Z) : 0 <= n -> no_dot (str_of_int n) = true.
Proof.
  unfold str_of_int, pretty, pretty_Z. destruct n as [|p|p]; [ reflexivity | | lia ].
  intros _. unfold pretty, pretty_positive, pretty, pretty_N.
  destruct (decide (N.pos p = 0%N)); [ reflexivity | ]. by apply pretty_N_go_no_dot.
Qed.

Lemma dotted_inj (p p' q q' : string) :
  no_dot p = true -> no_dot p' = true ->
  p +:+ String "." q = p' +:+ String "." q' -> p = p' /\ q = q'.
Proof.
  revert p'. induction p as [|c p IH]; intros [|c' p'] Hp Hp' Heq.
  - change (String "." q = String "." q') in Heq. injection Heq as ->. done.
  - change (String "." q = String c' (p' +:+ String "." q')) in Heq.
    injection Heq as <- _. discriminate.
  - change (String c (p +:+ String "." q) = String "." q') in Heq.
    injection Heq as -> _. discriminate.
  - change (String c (p +:+ String "." q) = String c' (p' +:+ String "." q')) in Heq.
    injection Heq as -> Heq. cbn [no_dot] in Hp, Hp'.
    apply andb_prop in Hp as [_ Hp]. apply andb_prop in Hp' as [_ Hp'].
    destruct (IH p' Hp Hp' Heq) as [-> ->]. done.
Qed.

(** ** The synthetic address, for every integer *)

Lemma low_bytes (n : Z) :
  n `mod` 65536 = n `mod` 256 + 256 * ((n `div` 256) `mod` 256).
Proof. change 65536 with (256 * 256). apply Z.rem_mul_r; lia. Qed.

(** X1: two NodeIDs get the same synthetic address exactly when they are
    equal modulo 65536, negative NodeIDs included. *)
Theorem ip_mock_por_nodeid_collisions (n m : Z) :
  ip_mock_por_nodeid n = ip_mock_por_nodeid m <-> n `mod` 65536 = m `mod` 65536.
Proof.
  pose proof (Z.mod_pos_bound n 256 ltac:(lia)) as Hbn.
  pose proof (Z.mod_pos_bound m 256 ltac:(lia)) as Hbm.
  pose proof (Z.mod_pos_bound (n `div` 256) 256 ltac:(lia)) as Han.
  pose proof (Z.mod_pos_bound (m `div` 256) 256 ltac:(lia)) as Ham.
  rewrite (low_bytes n), (low_bytes m). unfold ip_mock_por_nodeid. split.
  - intros Heq. apply (inj (String.app "10.199.")) in Heq.
    apply dotted_inj in Heq as [Ha Hb]; [ | apply str_of_int_no_dot; lia.. ].
    apply (inj pretty) in Ha. apply (inj pretty) in Hb. lia.
  - intros Heq.
    assert ((n `div` 256) `mod` 256 = (m `div` 256) `mod` 256) as -> by lia.
    assert (n `mod` 256 = m `mod` 256) as -> by lia. reflexivity.
Qed.

(** ** The translator *)

(** X2: NodeID survives the trip through text.  Within the limit on digits,
    [int()] reads back what [str()] printed; the NodeID varbind of a returned
    list holds the decimal text of the integer the record's NodeID coerced
    to; and a record whose NodeID is that text translates as the record
    does, whether to a list or to an exception. *)
Theorem node_id_text_round_trip (rt : Runtime) (cfg : Settings)
    (d : gmap string pyval) (node_id : Z) :
  py_int rt (dict_get d "NodeID") = Ok node_id ->
  (digit_count (str_of_int node_id) <= INT_MAX_STR_DIGITS)%nat ->
  py_int rt (PyStr (str_of_int node_id)) = Ok node_id
  /\ (forall vbs,
        construir_varbinds rt cfg (PyDict d) = Ok vbs ->
        snd <$> vbs !! 7%nat = Some (Octets (str_of_int node_id)))
  /\ construir_varbinds rt cfg (PyDict (<["NodeID" := PyStr (str_of_int node_id)]> d))
     = construir_varbinds rt cfg (PyDict d).
Proof.
  intros Hid Hcap.
  assert (Hback : py_int rt (PyStr (str_of_int node_id)) = Ok node_id).
  { cbn [py_int]. by rewrite int_of_str_str_of_int. }
  split; [ exact Hback | ]. split.
  - intros vbs Hok.
    destruct (construir_varbinds_shape rt cfg _ _ Hok)
      as (d' & n' & v1 & v2 & v3 & v4 & v5 & v6 & v7 & [= <-] & Hid' & _ & _ & _ & _ & _
          & H6 & _ & ->).
    rewrite Hid in Hid'. injection Hid' as <-.
    apply OctetString_text_inv in H6 as [_ ->]. cbn.
    by rewrite (proj2 (octet_ok_ascii _ (str_of_int_ascii node_id))).
  - unfold construir_varbinds, caption_of, status_of, vendor_of, node_ip_of, location_of.
    cbn [get_method mbind result_bind].
    unfold dict_get, dict_get_or in *. rewrite lookup_insert_eq. cbn [from_option id].
    rewrite Hback, Hid. cbn [mbind result_bind].
    rewrite !lookup_insert_ne by discriminate. reflexivity.
Qed.

Lemma node_id_text_round_trip_witness :
  construir_varbinds sample_runtime default_settings (PyDict core_sw_text_id)
  = construir_varbinds sample_runtime default_settings core_sw.
Proof.
  refine (proj2 (proj2 (node_id_text_round_trip sample_runtime default_settings
                          core_sw_fields 5 eq_refl _))).
  apply Nat.leb_le. reflexivity.
Defined.

(** The nine calls of [OctetString], by what the first that raises raises. *)
Lemma construir_varbinds_first_raise (rt : Runtime) (cfg : Settings)
    (d : gmap string pyval) (node_id : Z) (e : exn) :
  py_int rt (dict_get d "NodeID") = Ok node_id ->
  construir_varbinds rt cfg (PyDict d) = Raise e <->
  first_raise (OctetString <$> payloads rt cfg d node_id) = Some e.
Proof.
  intros Hid. rewrite (construir_varbinds_calls rt cfg d node_id Hid).
  unfold payloads. cbn [fmap list_fmap first_raise].
  destruct (OctetString (PyStr (ENTERPRISE_TRAP_OID cfg))) as [v1|e1];
    cbn [mbind result_bind first_raise]; [ | split; intros [= ->]; reflexivity ].
  destruct (OctetString (PyStr (location_of rt cfg d))) as [v2|e2];
    cbn [mbind result_bind first_raise]; [ | split; intros [= ->]; reflexivity ].
  destruct (OctetString (PyStr (status_of rt d))) as [v3|e3];
    cbn [mbind result_bind first_raise]; [ | split; intros [= ->]; reflexivity ].
  destruct (OctetString (PyStr (caption_of rt d node_id))) as [v4|e4];
    cbn [mbind result_bind first_raise]; [ | split; intros [= ->]; reflexivity ].
  destruct (OctetString (node_ip_of d node_id)) as [v5|e5];
    cbn [mbind result_bind first_raise]; [ | split; intros [= ->]; reflexivity ].
  destruct (OctetString (PyStr (str_of_int node_id))) as [v6|e6];
    cbn [mbind result_bind first_raise]; [ | split; intros [= ->]; reflexivity ].
  destruct (OctetString (PyStr (vendor_of rt d))) as [v7|e7];
    cbn [mbind result_bind first_raise]; split; [ discriminate | discriminate | intros [= ->]; reflexivity.. ].
Qed.

(** X3: the translation fails in three ways only.  A node that is not a dict
    raises AttributeError; a dict raises what [int()] raises on its NodeID,
    which is TypeError when the key is missing; and once NodeID has coerced
    it raises what the first failing call of [OctetString] raises, in the
    order of the list: on the trap root, the location, the status, the
    caption, the NodeIP, the NodeID text or the vendor. *)
Theorem construir_varbinds_failures (rt : Runtime) (cfg : Settings)
    (nodo : pyval) (e : exn) :
  (construir_varbinds rt cfg nodo = Raise e <->
     (is_record nodo = false /\ e = AttributeError)
     \/ (exists d, nodo = PyDict d /\ py_int rt (dict_get d "NodeID") = Raise e)
     \/ (exists d node_id,
           nodo = PyDict d
           /\ py_int rt (dict_get d "NodeID") = Ok node_id
           /\ first_raise (OctetString <$> payloads rt cfg d node_id) = Some e))
  /\ (forall d : gmap string pyval, d !! "NodeID" = None ->
        construir_varbinds rt cfg (PyDict d) = Raise TypeError).
Proof.
  split.
  - split.
    + destruct nodo as [| | | | | |d];
        try (unfold construir_varbinds; cbn [get_method mbind result_bind is_record];
             intros [= <-]; left; done).
      destruct (py_int rt (dict_get d "NodeID")) as [n|e'] eqn:Hid.
      * intros Hraise. right. right. exists d, n. split; [ done | ]. split; [ done | ].
        by apply construir_varbinds_first_raise.
      * unfold construir_varbinds. cbn [get_method mbind result_bind]. rewrite Hid.
        intros [= <-]. right. left. eauto.
    + intros [[Hrec ->] | [(d & -> & Hid) | (d & n & -> & Hid & Hfirst)]].
      * destruct nodo; cbn [is_record] in Hrec; try discriminate; reflexivity.
      * unfold construir_varbinds. cbn [get_method mbind result_bind].
        rewrite Hid. reflexivity.
      * by apply (construir_varbinds_first_raise rt cfg d n).
  - intros d Hd. unfold construir_varbinds, dict_get. cbn [get_method mbind result_bind].
    rewrite Hd. reflexivity.
Qed.

(** A NodeIP that is the number 1.5 is handed to [OctetString] as it is, and
    refused. *)
Lemma construir_varbinds_failures_witness :
  construir_varbinds sample_runtime default_settings (PyDict float_ip) = Raise TypeError.
Proof.
  apply (proj1 (construir_varbinds_failures sample_runtime default_settings
                  (PyDict float_ip) TypeError)).
  right. right. exists float_ip, 5. repeat split.
Defined.

Lemma last_char_suffix (s : string) (c : ascii) :
  last_char (s +:+ String "." (String c "")) = Some c.
Proof.
  induction s as [|a s IH]; [ reflexivity | ].
  change (last_char (String a (s +:+ String "." (String c ""))) = Some c).
  cbn [last_char]. destruct (s +:+ String "." (String c "")) eqn:Heq; [ | exact IH ].
  discriminate IH.
Qed.

(** A name under the root is none of the four standard names, and two names
    under the root with different last arcs differ. *)
Lemma root_arc_ne_standard (root std : string) (c : ascii) :
  last_char std <> Some c -> root +:+ String "." (String c "") <> std.
Proof. intros Hne <-. by rewrite last_char_suffix in Hne. Qed.

Lemma root_arcs_ne (root : string) (c c' : ascii) :
  c <> c' -> root +:+ String "." (String c "") <> root +:+ String "." (String c' "").
Proof. intros Hne Heq. apply (inj (String.app root)) in Heq. congruence. Qed.

(** X4: the nine object identifiers of a varbind list are pairwise distinct,
    whatever the configured enterprise root. *)
Theorem construir_varbinds_oids_distinct (rt : Runtime) (cfg : Settings)
    (nodo : pyval) (vbs : list varbind) :
  construir_varbinds rt cfg nodo = Ok vbs ->
  NoDup (oid_of <$> vbs).
Proof.
  intros Hok.
  destruct (construir_varbinds_shape rt cfg _ _ Hok)
    as (d & n & v1 & v2 & v3 & v4 & v5 & v6 & v7 & _ & _ & _ & _ & _ & _ & _ & _ & _ & ->).
  cbn [fmap list_fmap oid_of fst].
  repeat (apply NoDup_cons; split;
    [ rewrite ?elem_of_cons, elem_of_nil;
      intros Hin; repeat (destruct Hin as [Hin | Hin]); try done;
      first [ discriminate Hin
            | by (eapply root_arc_ne_standard; [ | exact Hin ])
            | by (eapply root_arc_ne_standard; [ | symmetry; exact Hin ])
            | by (eapply root_arcs_ne; [ | exact Hin ]) ]
    | ]).
  apply NoDup_nil_2.
Qed.

Lemma construir_varbinds_oids_distinct_witness :
  exists vbs,
    construir_varbinds sample_runtime default_settings core_sw = Ok vbs
    /\ NoDup (oid_of <$> vbs).
Proof.
  destruct (construir_varbinds sample_runtime default_settings core_sw) as [vbs|e] eqn:Hok;
    [ | exfalso; vm_compute in Hok; discriminate ].
  exists vbs. split; [ reflexivity | ].
  exact (construir_varbinds_oids_distinct sample_runtime default_settings core_sw vbs Hok).
Defined.

Lemma is_upper_lower_char (c : ascii) : is_upper (lower_char c) = false.
Proof. destruct c as [[] [] [] [] [] [] [] []]; reflexivity. Qed.

Lemma lower_char_fixed (c : ascii) : is_upper c = false -> lower_char c = c.
Proof. destruct c as [[] [] [] [] [] [] [] []]; first [ discriminate | reflexivity ]. Qed.

Lemma lower_char_ascii (c : ascii) :
  (nat_of_ascii c <? 128)%nat = true -> (nat_of_ascii (lower_char c) <? 128)%nat = true.
Proof. destruct c as [[] [] [] [] [] [] [] []]; first [ discriminate | reflexivity ]. Qed.

Lemma has_upper_ascii_lower (s : string) : has_upper (ascii_lower s) = false.
Proof.
  induction s as [|c s IH]; [ reflexivity | ].
  cbn [ascii_lower has_upper]. by rewrite is_upper_lower_char, IH.
Qed.

Lemma ascii_lower_fixed (s : string) : has_upper s = false -> ascii_lower s = s.
Proof.
  induction s as [|c s IH]; [ reflexivity | ].
  cbn [ascii_lower has_upper]. intros [Hc Hs]%orb_false_elim.
  by rewrite lower_char_fixed, IH.
Qed.

Lemma is_ascii_ascii_lower (s : string) : is_ascii s = true -> is_ascii (ascii_lower s) = true.
Proof.
  induction s as [|c s IH]; [ reflexivity | ].
  cbn [ascii_lower is_ascii]. intros [Hc Hs]%andb_prop.
  by rewrite lower_char_ascii, IH.
Qed.

Lemma length_ascii_lower (s : string) : String.length (ascii_lower s) = String.length s.
Proof. induction s as [|c s IH]; [ reflexivity | ]. cbn. by rewrite IH. Qed.

(** X5: when the text of Status is plain ASCII, the Status varbind of a
    returned list holds that text with A to Z replaced by a to z and every
    other character kept: it has no upper-case ASCII letter, lower-casing
    it again changes nothing, and a text with no such letter is emitted as
    it is. *)
Theorem construir_varbinds_status_lower (rt : Runtime) (cfg : Settings)
    (d : gmap string pyval) (vbs : list varbind) :
  let s := py_str rt (dict_get_or d "Status" (PyStr "unknown")) in
  construir_varbinds rt cfg (PyDict d) = Ok vbs ->
  is_ascii s = true ->
  vbs !! 4%nat = Some (ObjectIdentity (ENTERPRISE_TRAP_OID cfg +:+ ".1"),
                       Octets (ascii_lower s))
  /\ has_upper (ascii_lower s) = false
  /\ lower rt (ascii_lower s) = ascii_lower s
  /\ String.length (ascii_lower s) = String.length s
  /\ (has_upper s = false -> ascii_lower s = s).
Proof.
  intros s Hok Hascii.
  destruct (construir_varbinds_shape rt cfg _ _ Hok)
    as (d' & n & v1 & v2 & v3 & v4 & v5 & v6 & v7 & [= <-] & _ & _ & _ & H3 & _ & _ & _ & _ & ->).
  assert (Hst : status_of rt d = ascii_lower s).
  { unfold status_of, lower. fold s. by rewrite Hascii. }
  rewrite Hst in H3. apply OctetString_text_inv in H3 as [_ ->].
  pose proof (is_ascii_ascii_lower s Hascii) as Hlow.
  rewrite (proj2 (octet_ok_ascii _ Hlow)).
  split; [ reflexivity | ]. split; [ apply has_upper_ascii_lower | ].
  split; [ | split; [ apply length_ascii_lower | apply ascii_lower_fixed ] ].
  unfold lower. rewrite Hlow. apply ascii_lower_fixed, has_upper_ascii_lower.
Qed.

Lemma construir_varbinds_status_lower_witness :
  exists vbs,
    construir_varbinds sample_runtime default_settings core_sw = Ok vbs
    /\ vbs !! 4%nat = Some (ObjectIdentity "1.3.6.1.4.1.11307.10.1", Octets "down").
Proof.
  destruct (construir_varbinds sample_runtime default_settings core_sw) as [vbs|e] eqn:Hok;
    [ | exfalso; vm_compute in Hok; discriminate ].
  exists vbs. split; [ reflexivity | ].
  exact (proj1 (construir_varbinds_status_lower sample_runtime default_settings
                  core_sw_fields vbs Hok eq_refl)).
Defined.

(** X6: the translation reads six keys and no other: records that agree on
    NodeID, Caption, Status, Vendor, NodeIP and location translate alike. *)
Theorem construir_varbinds_six_keys (rt : Runtime) (cfg : Settings)
    (d d' : gmap string pyval) :
  (forall k, k ∈ ["NodeID"; "Caption"; "Status"; "Vendor"; "NodeIP"; "location"] ->
     d !! k = d' !! k) ->
  construir_varbinds rt cfg (PyDict d) = construir_varbinds rt cfg (PyDict d').
Proof.
  intros Hsame.
  unfold construir_varbinds, caption_of, status_of, vendor_of, node_ip_of, location_of,
    dict_get, dict_get_or.
  cbn [get_method mbind result_bind].
  rewrite (Hsame "NodeID"), (Hsame "Caption"), (Hsame "Status"), (Hsame "Vendor"),
    (Hsame "NodeIP"), (Hsame "location") by set_solver.
  reflexivity.
Qed.

Lemma construir_varbinds_six_keys_witness :
  construir_varbinds sample_runtime default_settings (PyDict core_sw_annotated)
  = construir_varbinds sample_runtime default_settings core_sw.
Proof.
  apply construir_varbinds_six_keys.
  intros k Hk. unfold core_sw_annotated. apply lookup_insert_ne.
  intros <-. repeat (apply elem_of_cons in Hk as [Hk | Hk]; [ discriminate | ]).
  by apply elem_of_nil in Hk.
Defined.

(** ** The fetcher, the sender and the run *)

Section RunMore.

Variable rt : Runtime.
Variable cfg : Settings.
Variable out : Outside.

Lemma obtener_nodos_run (w : World) :
  obtener_nodos cfg out w =
    (fst (obtener_nodos cfg out w),
     match fst (obtener_nodos cfg out w) with
     | Ok _ => after_request cfg out w
     | Raise e =>
         set_trace (after_request cfg out w)
           (trace (after_request cfg out w) ++ [ErrorLog "Error al obtener nodos" e])
     end).
Proof.
  unfold obtener_nodos, logging_errors, mbind, M_bind. rewrite requests_get_run.
  destruct (http_reply out) as [r|e]; [ | reflexivity ].
  destruct (status_code r =? 401); [ reflexivity | ].
  destruct (negb (status_code r =? 200)); [ reflexivity | ].
  unfold lift. destruct (json r) as [[]|e]; reflexivity.
Qed.

(** In any loop, ended or aborted: the nodes translated are a prefix of the
    list, the deliveries attempted carry the translations of a prefix, in
    order, and nothing else is logged or printed. *)
Lemma for_each_sends (nodos : list pyval) (w w' : World) (r : result unit) :
  for_each nodos (loop_body rt cfg out) w = (r, w') ->
  exists new,
    trace w' = trace w ++ new
    /\ successes new = [] /\ failures new = [] /\ summaries new = []
    /\ Forall2 (fun nodo vb => construir_varbinds rt cfg nodo = Ok vb)
         (take (length (sent new)) nodos) (sent new)
    /\ translated new = take (length (translated new)) nodos
    /\ (length (sent new) <= length (translated new))%nat
    /\ attempts w' = (attempts w + length (sent new))%nat
    /\ (r = Ok tt -> translated new = nodos /\ length (sent new) = length nodos).
Proof.
  revert w. induction nodos as [|nodo nodos IH]; intros w Hrun.
  - cbn in Hrun. injection Hrun as <- <-. exists []. rewrite app_nil_r.
    cbn. repeat split; [ constructor | lia | lia ].
  - cbn [for_each] in Hrun. unfold mbind, M_bind in Hrun.
    destruct (loop_body rt cfg out nodo w) as [[[]|e] w1] eqn:Hbody.
    + destruct (loop_body_ok rt cfg out nodo w (loop_body_ok_inv _ _ _ _ _ _ Hbody))
        as (vb & Hvb & Hturn).
      rewrite Hbody in Hturn. injection Hturn as ->.
      destruct (IH _ Hrun)
        as (new & Ht & Hsuc & Hfail & Hsum & Hsent & Htr & Hle & Hatt & Hok).
      exists ([Translate nodo; CreateTarget (TRAP_RECEIVER_IP cfg, TRAP_RECEIVER_PORT cfg);
               send_event cfg vb (TRAP_RECEIVER_IP cfg); Sleep 20] ++ new).
      rewrite Ht. cbn [after_turn trace attempts] in *.
      split; [ by rewrite app_assoc | ].
      unfold translated, sent, summaries, successes, failures in *.
      rewrite !omap_app, Hsuc, Hfail, Hsum. cbn.
      repeat split.
      * constructor; [ exact Hvb | exact Hsent ].
      * f_equal. exact Htr.
      * lia.
      * lia.
      * f_equal. by apply Hok.
      * f_equal. by apply Hok.
    + injection Hrun as <- <-.
      destruct (loop_body_raises rt cfg out nodo w w1 e Hbody)
        as [[_ ->] | (vb & Hvb & [[_ ->] | ->])].
      * exists [Translate nodo]. cbn. repeat split; [ constructor | lia | lia | discriminate.. ].
      * exists [Translate nodo; CreateTarget (TRAP_RECEIVER_IP cfg, TRAP_RECEIVER_PORT cfg)].
        cbn. repeat split; [ constructor | lia | lia | discriminate.. ].
      * exists [Translate nodo; CreateTarget (TRAP_RECEIVER_IP cfg, TRAP_RECEIVER_PORT cfg);
                send_event cfg vb (TRAP_RECEIVER_IP cfg)]. cbn.
        repeat split; [ by repeat constructor | lia | lia | discriminate.. ].
Qed.

(** A loop runs to its end exactly when every node is handled. *)
Lemma for_each_completes (nodos : list pyval) (w : World) :
  fst (for_each nodos (loop_body rt cfg out) w) = Ok tt <->
  forall i nodo, nodos !! i = Some nodo ->
    node_outcome rt cfg out (attempts w + i) nodo = Ok tt.
Proof.
  revert w. induction nodos as [|nodo nodos IH]; intros w.
  - split; [ intros _ i nodo Hi; discriminate | reflexivity ].
  - cbn [for_each]. unfold mbind, M_bind. split.
    + destruct (loop_body rt cfg out nodo w) as [[[]|e] w1] eqn:Hbody; [ | discriminate ].
      pose proof (loop_body_ok_inv _ _ _ _ _ _ Hbody) as Hnode.
      destruct (loop_body_ok rt cfg out nodo w Hnode) as (vb & _ & Hturn).
      rewrite Hbody in Hturn. injection Hturn as ->.
      intros Hrest [|i] n Hi.
      * injection Hi as <-. by rewrite Nat.add_0_r.
      * pose proof (proj1 (IH _) Hrest i n Hi) as Hn. cbn [after_turn attempts] in Hn.
        by replace (attempts w + S i)%nat with (S (attempts w) + i)%nat by lia.
    + intros Hall.
      pose proof (Hall 0%nat nodo eq_refl) as Hnode. rewrite Nat.add_0_r in Hnode.
      destruct (loop_body_ok rt cfg out nodo w Hnode) as (vb & _ & ->).
      apply IH. intros i n Hi. cbn [after_turn attempts].
      replace (S (attempts w) + i)%nat with (attempts w + S i)%nat by lia.
      by apply Hall.
Qed.

(** [main], by cases on the fetch and on the loop. *)
Lemma main_cases (w : World) :
  main rt cfg out w =
    match obtener_nodos cfg out w with
    | (Raise e, w1) => (Raise e, w1)
    | (Ok nodos, w1) =>
        match for_each nodos (loop_body rt cfg out)
                (loop_start (clock w) (length nodos) w1) with
        | (Raise e, w3) => (Raise e, w3)
        | (Ok _, w3) =>
            (Ok tt,
             set_trace w3
               (trace w3 ++ [ExecLog (TrapSendCompleted (length nodos) (clock w3 - clock w1));
                             PrintSuccess]))
        end
    end.
Proof.
  unfold main, mbind, M_bind, perf_counter.
  destruct (obtener_nodos cfg out w) as [[nodos|e] w1]; [ | reflexivity ].
  unfold emit, set_trace, loop_start. cbn [clock attempts trace].
  destruct (for_each nodos _ _) as [[[]|e] w3]; [ | reflexivity ].
  cbn [clock attempts trace]. by rewrite <- app_assoc.
Qed.

End RunMore.

(** X7: the fetch makes one request, and logs whatever it raises, once, before
    raising it again; an exception of the HTTP library or of the JSON decoder
    passes through unchanged; a fetch that returns logs no error. *)
Theorem obtener_nodos_logs_failure (cfg : Settings) (out : Outside) (w : World) :
  trace (snd (obtener_nodos cfg out w)) =
    trace w ++ HttpGet (API_URL cfg) (API_USER cfg, API_PASS cfg) TIMEOUT_SECONDS ::
      match fst (obtener_nodos cfg out w) with
      | Ok _ => []
      | Raise e => [ErrorLog "Error al obtener nodos" e]
      end
  /\ attempts (snd (obtener_nodos cfg out w)) = attempts w
  /\ (forall e, http_reply out = Raise e -> fst (obtener_nodos cfg out w) = Raise e)
  /\ (forall r e, http_reply out = Ok r -> status_code r = 200 -> json r = Raise e ->
        fst (obtener_nodos cfg out w) = Raise e).
Proof.
  split; [ | split; [ | split ] ].
  - rewrite obtener_nodos_run. cbn [snd].
    destruct (fst (obtener_nodos cfg out w)); cbn; by rewrite <- ?app_assoc.
  - rewrite obtener_nodos_run. cbn [snd].
    destruct (fst (obtener_nodos cfg out w)); reflexivity.
  - intros e He. by rewrite obtener_nodos_cases, He.
  - intros r e Hr Hs Hj. by rewrite obtener_nodos_cases, Hr, Hs, Hj.
Qed.

Lemma obtener_nodos_logs_failure_witness :
  fst (obtener_nodos default_settings unreachable boot) = Raise (LibraryError "ConnectionError")
  /\ trace (snd (obtener_nodos default_settings unreachable boot)) =
       [HttpGet None (None, None) 5;
        ErrorLog "Error al obtener nodos" (LibraryError "ConnectionError")].
Proof.
  destruct (obtener_nodos_logs_failure default_settings unreachable boot)
    as (Ht & _ & Hraise & _).
  pose proof (Hraise (LibraryError "ConnectionError") eq_refl) as Hfst.
  split; [ exact Hfst | ]. rewrite Ht, Hfst. reflexivity.
Defined.

(** X8: when the fetch fails nothing is translated and no delivery is
    attempted; the error is logged twice, by the fetcher and by the entry
    point, and the failure is printed last. *)
Theorem script_fetch_failure (rt : Runtime) (cfg : Settings) (out : Outside)
    (w : World) (e : exn) :
  fst (obtener_nodos cfg out w) = Raise e ->
  trace (script rt cfg out w) =
    trace w ++ [HttpGet (API_URL cfg) (API_USER cfg, API_PASS cfg) TIMEOUT_SECONDS;
                ErrorLog "Error al obtener nodos" e;
                ErrorLog "Fallo en BIFROST sender" e;
                PrintFailure e]
  /\ attempts (script rt cfg out w) = attempts w.
Proof.
  intros Hfetch.
  assert (Hmain : main rt cfg out w =
                  (Raise e, set_trace (after_request cfg out w)
                     (trace (after_request cfg out w) ++
                      [ErrorLog "Error al obtener nodos" e]))).
  { rewrite main_cases, obtener_nodos_run, Hfetch. reflexivity. }
  rewrite (script_failed _ _ _ _ _ _ Hmain). cbn. split; [ | reflexivity ].
  by rewrite <- !app_assoc.
Qed.

Lemma script_fetch_failure_witness :
  trace (script sample_runtime default_settings unauthorized boot) =
    [HttpGet None (None, None) 5;
     ErrorLog "Error al obtener nodos" AuthError;
     ErrorLog "Fallo en BIFROST sender" AuthError;
     PrintFailure AuthError].
Proof.
  exact (proj1 (script_fetch_failure sample_runtime default_settings unauthorized boot
                  AuthError eq_refl)).
Defined.

(** X9: in any run, ended or aborted, the deliveries attempted carry the
    translations of the first nodes fetched, one per node and in fetch order,
    and the nodes translated are a prefix of the nodes fetched; the line of
    the fetch is logged with their number even when the run aborts later; a
    run that ends has handled them all and logs that number as sent. *)
Theorem main_sends_in_fetch_order (rt : Runtime) (cfg : Settings)
    (out : Outside) (w w' : World) (r : result unit) (nodos : list pyval) :
  fst (obtener_nodos cfg out w) = Ok nodos ->
  main rt cfg out w = (r, w') ->
  exists new,
    trace w' = trace w ++ new
    /\ Forall2 (fun nodo vb => construir_varbinds rt cfg nodo = Ok vb)
         (take (length (sent new)) nodos) (sent new)
    /\ translated new = take (length (translated new)) nodos
    /\ (length (sent new) <= length (translated new))%nat
    /\ (exists fetch_ms, ExecLog (ApiFetch (length nodos) fetch_ms) ∈ new)
    /\ (r = Ok tt ->
        translated new = nodos
        /\ length (sent new) = length nodos
        /\ exists send_ms, summaries new = [(length nodos, send_ms)]).
Proof.
  intros Hfetch Hmain. rewrite main_cases, obtener_nodos_run, Hfetch in Hmain.
  destruct (for_each nodos _ _) as [r0 w3] eqn:Hloop.
  destruct (for_each_sends _ _ _ _ _ _ _ Hloop)
    as (new & Ht & _ & _ & Hsum & Hsent & Htr & Hle & _ & Hok).
  cbn [loop_start after_request trace clock attempts] in Ht.
  destruct r0 as [[]|e]; injection Hmain as <- <-.
  - eexists (_ :: _ :: new ++ [_; _]).
    cbn [set_trace trace]. rewrite Ht.
    split; [ by rewrite <- !app_assoc | ].
    destruct (Hok eq_refl) as [Hall Hlen].
    unfold translated, sent, summaries in *. cbn. rewrite !omap_app. cbn.
    rewrite !app_nil_r, Hsum.
    split; [ exact Hsent | ]. split; [ exact Htr | ]. split; [ exact Hle | ].
    split; [ eexists; do 2 constructor | ].
    intros _. split; [ exact Hall | ]. split; [ exact Hlen | ]. eexists. reflexivity.
  - eexists (_ :: _ :: new). rewrite Ht.
    split; [ by rewrite <- !app_assoc | ].
    unfold translated, sent, summaries in *. cbn.
    split; [ exact Hsent | ]. split; [ exact Htr | ]. split; [ exact Hle | ].
    split; [ eexists; do 2 constructor | discriminate ].
Qed.

(** The aborted run of three nodes: two deliveries attempted, carrying the
    translations of the first two nodes. *)
Lemma main_sends_in_fetch_order_witness :
  exists (w' : World) (vb1 vb2 : list varbind),
    main sample_runtime default_settings second_refused boot
      = (Raise (RuntimeError "noSuchName at 4"), w')
    /\ sent (trace w') = [vb1; vb2]
    /\ construir_varbinds sample_runtime default_settings (node 1) = Ok vb1
    /\ construir_varbinds sample_runtime default_settings (node 2) = Ok vb2.
Proof.
  destruct (main sample_runtime default_settings second_refused boot) as [r w'] eqn:Hmain.
  destruct (main_sends_in_fetch_order sample_runtime default_settings second_refused boot w' r
              [node 1; node 2; node 3] eq_refl Hmain)
    as (new & Ht & Hsent & _).
  cbn [trace boot app] in Ht. rewrite <- Ht in Hsent.
  vm_compute in Hmain. injection Hmain as <- <-.
  eexists _, _, _. split; [ reflexivity | ]. split; [ reflexivity | ].
  split; reflexivity.
Defined.

(** X10: [main] returns exactly when the fetch returns a list and every node
    of it is translated and delivered; an empty list is such a run. *)
Theorem main_completes_iff (rt : Runtime) (cfg : Settings) (out : Outside)
    (w : World) :
  fst (main rt cfg out w) = Ok tt <->
  exists nodos,
    fst (obtener_nodos cfg out w) = Ok nodos
    /\ forall i nodo, nodos !! i = Some nodo ->
         node_outcome rt cfg out (attempts w + i) nodo = Ok tt.
Proof.
  rewrite main_cases, obtener_nodos_run.
  destruct (fst (obtener_nodos cfg out w)) as [nodos|e].
  - pose proof (for_each_completes rt cfg out nodos
                  (loop_start (clock w) (length nodos) (after_request cfg out w))) as Hiff.
    cbn [loop_start after_request attempts] in Hiff.
    destruct (for_each nodos _ _) as [[[]|e] w3]; cbn [fst] in *.
    + split; [ intros _; exists nodos; split; [ reflexivity | by apply Hiff ] | reflexivity ].
    + split; [ discriminate | ].
      intros (nodos' & [= <-] & Hall). by apply Hiff.
  - split; [ discriminate | intros (nodos & Hno & _); discriminate ].
Qed.

Lemma main_completes_iff_witness :
  fst (main sample_runtime default_settings no_nodes boot) = Ok tt.
Proof.
  apply main_completes_iff. exists []. split; [ reflexivity | ].
  intros i nodo Hi. discriminate.
Defined.

(** X11: every run prints exactly one marker, as its last event: the success
    marker, after the send summary, when [main] returns, and the failure
    marker, with no send summary, when it raises. *)
Theorem script_prints_one_marker (rt : Runtime) (cfg : Settings)
    (out : Outside) (w : World) :
  exists new,
    trace (script rt cfg out w) = trace w ++ new
    /\ ((fst (main rt cfg out w) = Ok tt
         /\ successes new = [tt] /\ failures new = []
         /\ length (summaries new) = 1%nat
         /\ last new = Some PrintSuccess)
        \/ (exists e,
              fst (main rt cfg out w) = Raise e
              /\ successes new = [] /\ failures new = [e]
              /\ summaries new = []
              /\ last new = Some (PrintFailure e))).
Proof.
  destruct (main rt cfg out w) as [r w'] eqn:Hmain.
  pose proof Hmain as Hcases. rewrite main_cases, obtener_nodos_run in Hcases.
  destruct (fst (obtener_nodos cfg out w)) as [nodos|e] eqn:Hfetch.
  - destruct (for_each nodos _ _) as [r0 w3] eqn:Hloop.
    destruct (for_each_sends _ _ _ _ _ _ _ Hloop)
      as (new & Ht & Hsuc & Hfail & Hsum & _).
    cbn [loop_start after_request trace clock attempts] in Ht.
    destruct r0 as [[]|e]; injection Hcases as <- <-.
    + unfold script. rewrite Hmain. eexists (_ :: _ :: new ++ [_; _]).
      cbn [set_trace trace]. rewrite Ht.
      split; [ by rewrite <- !app_assoc | ]. left.
      unfold successes, failures, summaries in *. cbn. rewrite !omap_app. cbn.
      rewrite Hsuc, Hfail, Hsum. repeat split.
      rewrite !app_comm_cons. by rewrite last_app.
    + rewrite (script_failed _ _ _ _ _ _ Hmain). cbn [trace].
      eexists (_ :: _ :: new ++ [_; _]). rewrite Ht.
      split; [ by rewrite <- !app_assoc | ]. right. exists e.
      unfold successes, failures, summaries in *. cbn. rewrite !omap_app. cbn.
      rewrite Hsuc, Hfail, Hsum. repeat split.
      rewrite !app_comm_cons. by rewrite last_app.
  - injection Hcases as <- <-.
    rewrite (script_failed _ _ _ _ _ _ Hmain). cbn.
    eexists [_; _; _; _]. split; [ by rewrite <- !app_assoc | ].
    right. exists e. repeat split.
Qed.

(** X12: the sender creates the transport target before it sends.  When the
    creation raises, the exception passes through and no notification is
    handed to the library; when the target is created, exactly one
    notification follows, to the configured port, with the configured
    community and trap root and the varbinds given, and an exception of the
    send call passes through unchanged. *)
Theorem enviar_trap_single_attempt (cfg : Settings) (out : Outside)
    (vbs : list varbind) (target : option string) (w : World) :
  let run := enviar_trap cfg out vbs target w in
  let created := CreateTarget (target, TRAP_RECEIVER_PORT cfg) in
  (forall e, target_reply out (attempts w) = Raise e ->
     run = (Raise e, set_trace w (trace w ++ [created])))
  /\ (target_reply out (attempts w) = Ok tt ->
      trace (snd run) =
        trace w ++ [created;
                    SendNotification (SNMP_COMMUNITY cfg) (target, TRAP_RECEIVER_PORT cfg)
                      (ObjectIdentity (ENTERPRISE_TRAP_OID cfg)) vbs]
      /\ attempts (snd run) = S (attempts w)
      /\ (forall e, trap_reply out (attempts w) = Raise e -> fst run = Raise e)
      /\ (forall res, trap_reply out (attempts w) = Ok res -> fst run = check_reply res)).
Proof.
  cbv zeta. unfold enviar_trap, create_target, send_notification_func, send_event, lift,
    mbind, M_bind.
  cbn [set_trace attempts trace clock]. split.
  - intros e ->. reflexivity.
  - intros ->. destruct (trap_reply out (attempts w)) as [res|e] eqn:Hres; cbn [fst snd trace attempts].
    + rewrite <- app_assoc. repeat split; [ discriminate | by intros ? [= <-] ].
    + rewrite <- app_assoc. repeat split; [ by intros ? [= <-] | discriminate ].
Qed.

(** The receiver cannot be resolved: the exception of the library comes out
    and nothing is sent. *)
Lemma enviar_trap_single_attempt_witness :
  fst (enviar_trap default_settings no_route [] (Some "trap.invalid") boot)
    = Raise (LibraryError "PySnmpError")
  /\ sent (trace (snd (enviar_trap default_settings no_route [] (Some "trap.invalid") boot)))
     = [].
Proof.
  rewrite (proj1 (enviar_trap_single_attempt default_settings no_route []
                    (Some "trap.invalid") boot) (LibraryError "PySnmpError") eq_refl).
  split; reflexivity.
Defined.


